(** * YouTube thumbnail assistant: channel resolution, thumbnail scoring and
      creative suggestions

    A shallow embedding of [app/services/youtube_client.py] and
    [app/services/gemini_client.py].

    - Python [str] values are sequences of Unicode code points ([PyStr]).
    - Decoded JSON and the other dynamically typed values the code passes
      around are the inductive [value]; an operation the interpreter would
      reject raises the matching exception ([Py]).
    - Python [float] is IEEE binary64, here the primitive type [float];
      the arithmetic, comparisons and [round] the score uses are in [PyNum].
    - Outbound calls (HTTP requests, generation SDK calls) are answered by an
      oracle that sees the history of calls, and are recorded in a log that is
      threaded through the computation ([Eff]). *)

From Stdlib Require Import ZArith NArith List Bool Lia.
From Stdlib.Strings Require Import String Ascii Byte.
From Stdlib Require Import Floats.
Import ListNotations.

Local Open Scope Z_scope.
Set Warnings "-register-all,-inexact-float,-abstract-large-number".

(* ------------------------------------------------------------------ *)
(** * Python strings *)

Module PyStr.

(** A code point, and a [str] as the sequence of its code points, so that
    [len], slicing and regular expressions count what Python counts. *)
Abbreviation codepoint := N (only parsing).
Abbreviation pystr := (list N) (only parsing).

(** Continuation byte of a UTF-8 sequence: its low six bits. *)
Definition cont (b : N) : N := N.land b 63.

(** Decoding of the UTF-8 bytes of a literal of this file into code points
    (used only to write the literals of the source). *)
Fixpoint utf8_decode (fuel : nat) (bs : list N) : pystr :=
  match fuel with
  | O => []
  | S fuel =>
    match bs with
    | [] => []
    | b0 :: r0 =>
      if (b0 <? 128)%N then b0 :: utf8_decode fuel r0
      else if (b0 <? 224)%N then
        match r0 with
        | b1 :: r1 => (N.land b0 31 * 64 + cont b1)%N :: utf8_decode fuel r1
        | _ => []
        end
      else if (b0 <? 240)%N then
        match r0 with
        | b1 :: b2 :: r2 =>
          (N.land b0 15 * 4096 + cont b1 * 64 + cont b2)%N :: utf8_decode fuel r2
        | _ => []
        end
      else
        match r0 with
        | b1 :: b2 :: b3 :: r3 =>
          (N.land b0 7 * 262144 + cont b1 * 4096 + cont b2 * 64 + cont b3)%N
            :: utf8_decode fuel r3
        | _ => []
        end
    end
  end.

Definition lit (s : string) : pystr :=
  let bs := List.map Byte.to_N (list_byte_of_string s) in
  utf8_decode (List.length bs) bs.

Fixpoint eqb (s t : pystr) : bool :=
  match s, t with
  | [], [] => true
  | c :: s', d :: t' => (c =? d)%N && eqb s' t'
  | _, _ => false
  end.

(** [s.startswith(p)] *)
Fixpoint startswith (s p : pystr) : bool :=
  match p with
  | [] => true
  | c :: p' =>
    match s with
    | d :: s' => (d =? c)%N && startswith s' p'
    | [] => false
    end
  end.

(** [s.lstrip(c)] for a one-character argument. *)
Fixpoint lstrip_char (c : codepoint) (s : pystr) : pystr :=
  match s with
  | d :: s' => if (d =? c)%N then lstrip_char c s' else s
  | [] => []
  end.

(** [str.isspace] on one code point: the Unicode white-space characters. *)
Definition isspace (c : codepoint) : bool :=
  ((9 <=? c) && (c <=? 13) || (28 <=? c) && (c <=? 32) || (c =? 133)
   || (c =? 160) || (c =? 5760) || (8192 <=? c) && (c <=? 8202)
   || (c =? 8232) || (c =? 8233) || (c =? 8239) || (c =? 8287)
   || (c =? 12288))%N.

Fixpoint lstrip (s : pystr) : pystr :=
  match s with
  | c :: s' => if isspace c then lstrip s' else s
  | [] => []
  end.

Definition rstrip (s : pystr) : pystr := rev (lstrip (rev s)).

(** [s.strip()] *)
Definition strip (s : pystr) : pystr := rstrip (lstrip s).

(** Truth value of a [str]: non-empty. *)
Definition truthy (s : pystr) : bool :=
  match s with [] => false | _ :: _ => true end.

(** [sep.join(parts)] *)
Fixpoint join (sep : pystr) (parts : list pystr) : pystr :=
  match parts with
  | [] => []
  | [p] => p
  | p :: rest => p ++ sep ++ join sep rest
  end.

End PyStr.

Import PyStr.


(* ------------------------------------------------------------------ *)
(** * Python values, exceptions and the operations the code applies *)

Module Py.

(** The exceptions the modelled code can raise.  All of them are subclasses
    of [Exception]; [JSONDecodeError] is a subclass of [ValueError], the
    [httpx] errors are subclasses of [httpx.HTTPError].  [ValueError msg]
    also stands for the other subclasses of [ValueError] whose text is
    [msg], such as the [UnicodeEncodeError] of a codec.  [ServiceError]
    stands for whatever the generation SDK raises (service errors, empty
    answers, timeouts). *)
Inductive exn :=
| ValueError (msg : pystr)
| JSONDecodeError
| HTTPError
| AttributeError
| KeyError
| TypeError
| OverflowError
| ZeroDivisionError
| ServiceError (msg : pystr).

(** The outcome of evaluating an expression. *)
Inductive result (A : Type) :=
| Ok (a : A)
| Raise (e : exn).
Arguments Ok {A} a.
Arguments Raise {A} e.

Definition rbind {A B} (r : result A) (k : A -> result B) : result B :=
  match r with
  | Ok a => k a
  | Raise e => Raise e
  end.

(** Dynamically typed values: what [response.json()] decodes to, and [None]. *)
Inductive value :=
| VNone
| VBool (b : bool)
| VInt (z : Z)
| VFloat (f : float)
| VStr (s : pystr)
| VList (items : list value)
| VDict (entries : list (pystr * value)).

(** Truth value, as [if x], [not x] and [x or y] compute it. *)
Definition truthy (v : value) : bool :=
  match v with
  | VNone => false
  | VBool b => b
  | VInt z => negb (z =? 0)
  | VFloat f => negb (PrimFloat.eqb f 0)
  | VStr s => PyStr.truthy s
  | VList items => match items with [] => false | _ => true end
  | VDict entries => match entries with [] => false | _ => true end
  end.

(** Lookup of a key in the entries of a [dict]. *)
Fixpoint lookup (k : pystr) (entries : list (pystr * value)) : option value :=
  match entries with
  | [] => None
  | (k', v) :: rest => if PyStr.eqb k' k then Some v else lookup k rest
  end.

(** [d.get(k, default)]: only a [dict] has the method. *)
Definition get (d : value) (k : pystr) (default : value) : result value :=
  match d with
  | VDict entries =>
    match lookup k entries with
    | Some v => Ok v
    | None => Ok default
    end
  | _ => Raise AttributeError
  end.

(** [d[k]] for a string key. *)
Definition getitem (d : value) (k : pystr) : result value :=
  match d with
  | VDict entries =>
    match lookup k entries with
    | Some v => Ok v
    | None => Raise KeyError
    end
  | _ => Raise TypeError
  end.

(** [x[0]] where [x] is known to be truthy. *)
Definition first (x : value) : result value :=
  match x with
  | VList (v :: _) => Ok v
  | VStr (c :: _) => Ok (VStr [c])
  | VDict _ => Raise KeyError
  | _ => Raise TypeError
  end.

(** The elements [for item in x] goes through. *)
Definition iter (x : value) : result (list value) :=
  match x with
  | VList items => Ok items
  | VStr s => Ok (List.map (fun c => VStr [c]) s)
  | VDict entries => Ok (List.map (fun kv => VStr (fst kv)) entries)
  | _ => Raise TypeError
  end.

(** Truth value of an [Optional[str]], and the value it stands for. *)
Definition opt_truthy (o : option pystr) : bool :=
  match o with
  | Some s => PyStr.truthy s
  | None => false
  end.

Definition opt_value (o : option pystr) : value :=
  match o with
  | Some s => VStr s
  | None => VNone
  end.

End Py.

Import Py.

Declare Scope result_scope.
Delimit Scope result_scope with result.
Notation "'let?' x ':=' c 'in' k" := (rbind c (fun x => k))
  (at level 10, x name, c at level 100, k at level 200) : result_scope.
Open Scope result_scope.

(* ------------------------------------------------------------------ *)
(** * Computations that issue outbound calls *)

Module Eff.

Section Calls.

(** [C] is the type of an outbound call.  A computation receives the log of
    the calls issued so far and returns its outcome with the extended log. *)
Context {C : Type}.

Definition M (A : Type) : Type := list C -> result A * list C.

Definition ret {A} (a : A) : M A := fun log => (Ok a, log).

Definition raise {A} (e : exn) : M A := fun log => (Raise e, log).

Definition lift {A} (r : result A) : M A := fun log => (r, log).

Definition bind {A B} (m : M A) (k : A -> M B) : M B :=
  fun log =>
    match m log with
    | (Ok a, log') => k a log'
    | (Raise e, log') => (Raise e, log')
    end.

(** [try: m except Exception: pass], for a block run for its effect on a
    variable whose value before the block is [fallback]. *)
Definition try_or {A} (m : M A) (fallback : A) : M A :=
  fun log =>
    match m log with
    | (Ok a, log') => (Ok a, log')
    | (Raise _, log') => (Ok fallback, log')
    end.

(** One outbound call, answered by [answer] from the history. *)
Definition call {R} (answer : list C -> C -> R) (c : C) : M R :=
  fun log => (Ok (answer log c), log ++ [c]).

(** Run from an empty history. *)
Definition run {A} (m : M A) : result A * list C := m [].

End Calls.

End Eff.

Declare Scope eff_scope.
Delimit Scope eff_scope with eff.
Notation "x <- c ;; k" := (Eff.bind c (fun x => k))
  (at level 100, c at next level, right associativity) : eff_scope.
Open Scope eff_scope.

(* ------------------------------------------------------------------ *)
(** * The two regular expressions of the channel resolver *)

Module Re.

Section Patterns.

(** [str.isalnum] on a code point outside ASCII, as the interpreter's
    Unicode database decides it. *)
Variable unicode_alnum : codepoint -> bool.

Definition ascii_alnum (c : codepoint) : bool :=
  ((48 <=? c) && (c <=? 57) || (65 <=? c) && (c <=? 90)
   || (97 <=? c) && (c <=? 122))%N.

(** The class [\w] of a [str] pattern: alphanumeric or underscore. *)
Definition word_char (c : codepoint) : bool :=
  if (c <? 128)%N then ascii_alnum c || (c =? 95)%N else unicode_alnum c.

(** The class [[\w-]]. *)
Definition id_char (c : codepoint) : bool := word_char c || (c =? 45)%N.

(** The class [[A-Za-z0-9._-]]. *)
Definition handle_char (c : codepoint) : bool :=
  ascii_alnum c || (c =? 46)%N || (c =? 95)%N || (c =? 45)%N.

(** [n] characters of the class [p] at the start of [s]. *)
Fixpoint repeat_here (n : nat) (p : codepoint -> bool) (s : pystr) : bool :=
  match n with
  | O => true
  | S n' =>
    match s with
    | c :: s' => p c && repeat_here n' p s'
    | [] => false
    end
  end.

(** [UC[\w-]{22}] matches at the start of [s]. *)
Definition channel_id_here (s : pystr) : bool :=
  match s with
  | c0 :: c1 :: rest => (c0 =? 85)%N && (c1 =? 67)%N && repeat_here 22 id_char rest
  | _ => false
  end.

(** [re.search(r"(UC[\w-]{22})", s)]: group 1 of the leftmost match. *)
Fixpoint search_channel_id (s : pystr) : option pystr :=
  if channel_id_here s then Some (firstn 24 s)
  else
    match s with
    | [] => None
    | _ :: s' => search_channel_id s'
    end.

Fixpoint take_while (p : codepoint -> bool) (s : pystr) : pystr :=
  match s with
  | c :: s' => if p c then c :: take_while p s' else []
  | [] => []
  end.

(** [re.search(r"@([A-Za-z0-9._-]+)", s)]: group 1 of the leftmost match,
    the longest run of class characters after the first [@] that has one. *)
Fixpoint search_handle (s : pystr) : option pystr :=
  match s with
  | [] => None
  | c :: s' =>
    if (c =? 64)%N && match s' with d :: _ => handle_char d | [] => false end
    then Some (take_while handle_char s')
    else search_handle s'
  end.

End Patterns.

End Re.

(* ------------------------------------------------------------------ *)
(** * Python numbers: [float], and [int] where the code mixes the two *)

Module PyNum.

Inductive num :=
| Int (z : Z)
| Float (f : float).

(** [float(z)] for an [int]: the nearest binary64 value, ties to even;
    [OverflowError] when that is out of range. *)
Definition of_int (z : Z) : result float :=
  match binary_normalize prec emax z 0 false with
  | S754_infinity _ => Raise OverflowError
  | r => Ok (SF2Prim r)
  end.

(** The operand of a [float] operator as a [float]. *)
Definition operand (n : num) : result float :=
  match n with
  | Int z => of_int z
  | Float f => Ok f
  end.

(** Exact comparison of a [float] with an [int] (the interpreter does not
    round the [int] first); [None] when the [float] is a NaN. *)
Definition compare_int (x : float) (z : Z) : option comparison :=
  match Prim2SF x with
  | S754_nan => None
  | S754_zero _ => Some (0 ?= z)
  | S754_infinity s => Some (if s then Lt else Gt)
  | S754_finite s m e =>
    let n := if s then Z.neg m else Z.pos m in
    Some (if 0 <=? e then (n * 2 ^ e ?= z) else (n ?= z * 2 ^ (- e)))
  end.

(** [a < b] *)
Definition lt (a b : num) : bool :=
  match a, b with
  | Int x, Int y => x <? y
  | Float x, Float y => PrimFloat.ltb x y
  | Float x, Int y => match compare_int x y with Some Lt => true | _ => false end
  | Int x, Float y => match compare_int y x with Some Gt => true | _ => false end
  end.

(** [a <= b] *)
Definition le (a b : num) : bool :=
  match a, b with
  | Int x, Int y => x <=? y
  | Float x, Float y => PrimFloat.leb x y
  | Float x, Int y => match compare_int x y with Some (Lt | Eq) => true | _ => false end
  | Int x, Float y => match compare_int y x with Some (Gt | Eq) => true | _ => false end
  end.

(** [max(a, b)]: [b] when [b > a], else [a]. *)
Definition max_ (a b : num) : num := if lt a b then b else a.

(** [min(a, b)]: [b] when [b < a], else [a]. *)
Definition min_ (a b : num) : num := if lt b a then b else a.

(** [x + y], [x * y] and [x / y] for a [float] [x]. *)
Definition add (x : float) (y : num) : result float :=
  let? y' := operand y in Ok (x + y')%float.

Definition mul (x : float) (y : num) : result float :=
  let? y' := operand y in Ok (x * y')%float.

Definition truediv (x : float) (y : num) : result float :=
  let? y' := operand y in
  if PrimFloat.eqb y' 0 then Raise ZeroDivisionError else Ok (x / y')%float.

(** The integer nearest to [a / b], ties to even ([0 < b]). *)
Definition round_half_even (a b : Z) : Z :=
  let q := a / b in
  match 2 * (a mod b) ?= b with
  | Lt => q
  | Gt => q + 1
  | Eq => if Z.even q then q else q + 1
  end.

(** [round(x, ndigits)] for a [float] and [ndigits >= 0]: the decimal with
    [ndigits] fractional digits nearest to the exact value of [x] (ties to
    even), converted back to the nearest [float].  Non-finite values, zeros
    and integral values round to themselves; the sign is kept. *)
Definition round_float (x : float) (ndigits : nat) : float :=
  match Prim2SF x with
  | S754_finite s m e =>
    if 0 <=? e then x
    else
      let scale := Z.to_pos (10 ^ Z.of_nat ndigits) in
      match round_half_even (Z.pos m * Z.pos scale) (2 ^ (- e)) with
      | Z.pos n =>
        SF2Prim (SFdiv prec emax (S754_finite s n 0) (S754_finite false scale 0))
      | _ => if s then neg_zero else zero
      end
  | _ => x
  end.

(** [round(n, ndigits)] with [ndigits >= 0]: an [int] is returned as it is. *)
Definition round_ (n : num) (ndigits : nat) : num :=
  match n with
  | Int z => Int z
  | Float f => Float (round_float f ndigits)
  end.

End PyNum.

Import PyNum.

(* ------------------------------------------------------------------ *)
(** * [YouTubeClient]: channel resolution and video aggregation *)

Module YouTubeClient.

(** An HTTP GET request; every request of the client carries [timeout=10]. *)
Record request := { url : pystr; params : list (pystr * value) }.

(** What one request comes back with: a transport failure (time-outs
    included), or a response with its status and, when the body is JSON,
    the decoded body. *)
Inductive outcome :=
| TransportError
| Response (error_status : bool) (body : option value).

(** The client object. *)
Record client := { api_key : option pystr; base_url : pystr }.

(** [YouTubeClient(api_key)] *)
Definition init (key : option pystr) : client :=
  {| api_key := key; base_url := lit "https://www.googleapis.com/youtube/v3" |}.

Definition msg_unresolved : pystr :=
  lit "Не удалось определить ID канала. Укажите ссылку формата https://www.youtube.com/channel/<ID> или @username.".

Definition msg_handle_needs_key : pystr :=
  lit "Поиск по @username требует установленного YOUTUBE_API_KEY.".

Definition msg_no_key : pystr :=
  lit "Не задан YOUTUBE_API_KEY, YouTube Data API недоступен.".

Definition msg_channel_not_found : pystr :=
  lit "Канал не найден или недоступен.".

Definition default_title : pystr := lit "Без названия".

Record ThumbnailInfo := {
  video_id : value;
  title : value;
  description : value;
  thumbnail_url : value;
  ctr_score : num
}.

Section Client.

Variable unicode_alnum : codepoint -> bool.

(** [float(s)] for a [str], as the interpreter parses it. *)
Variable float_of_str : pystr -> result float.

(** The network: the answer to a request, given the requests before it. *)
Variable world : list request -> request -> outcome.

Definition M := @Eff.M request.

(** [client.get(url, params=params, timeout=10)], then
    [response.raise_for_status()] and [response.json()]. *)
Definition get_json (u : pystr) (ps : list (pystr * value)) : M value :=
  r <- Eff.call world {| url := u; params := ps |} ;;
  match r with
  | TransportError => Eff.raise HTTPError
  | Response true _ => Eff.raise HTTPError
  | Response false None => Eff.raise JSONDecodeError
  | Response false (Some data) => Eff.ret data
  end.

Definition _extract_channel_id (url : pystr) : option pystr :=
  match Re.search_channel_id unicode_alnum url with
  | Some g => Some g
  | None =>
    if PyStr.startswith url (lit "UC") && (24 <=? Z.of_nat (List.length url))
    then Some url
    else None
  end.

Definition _extract_handle (value : pystr) : option pystr :=
  match Re.search_handle value with
  | Some g => Some g
  | None =>
    if PyStr.startswith value (lit "@")
    then Some (PyStr.lstrip_char 64%N value)
    else None
  end.

Definition _fetch_channel_id_by_handle (self : client) (handle : pystr) : M value :=
  data <- get_json (base_url self ++ lit "/search")
            [ (lit "part", VStr (lit "snippet"));
              (lit "type", VStr (lit "channel"));
              (lit "q", VStr (lit "@" ++ handle));
              (lit "maxResults", VInt 1);
              (lit "key", opt_value (api_key self)) ] ;;
  items <- Eff.lift (Py.get data (lit "items") (VList [])) ;;
  if negb (Py.truthy items) then Eff.ret VNone
  else
    Eff.lift (let? item := Py.first items in
              let? id := Py.get item (lit "id") (VDict []) in
              Py.get id (lit "channelId") VNone).

Definition _resolve_channel_identifier (self : client) (value : pystr) : M Py.value :=
  let channel_id := _extract_channel_id value in
  if opt_truthy channel_id then Eff.ret (opt_value channel_id)
  else
    let handle := _extract_handle value in
    if opt_truthy handle then
      if negb (opt_truthy (api_key self))
      then Eff.raise (ValueError msg_handle_needs_key)
      else
        match handle with
        | Some h => _fetch_channel_id_by_handle self h
        | None => Eff.ret VNone
        end
    else Eff.ret VNone.

Definition _get_uploads_playlist (self : client) (channel_id : value) : M value :=
  if negb (opt_truthy (api_key self)) then Eff.raise (ValueError msg_no_key)
  else
    data <- get_json (base_url self ++ lit "/channels")
              [ (lit "part", VStr (lit "contentDetails"));
                (lit "id", channel_id);
                (lit "key", opt_value (api_key self)) ] ;;
    items <- Eff.lift (Py.get data (lit "items") (VList [])) ;;
    if negb (Py.truthy items) then Eff.raise (ValueError msg_channel_not_found)
    else
      Eff.lift (let? item := Py.first items in
                let? details := Py.getitem item (lit "contentDetails") in
                let? related := Py.getitem details (lit "relatedPlaylists") in
                Py.getitem related (lit "uploads")).

(** [item["snippet"]["resourceId"]["videoId"]] *)
Definition video_id_of (item : value) : result value :=
  let? snippet := Py.getitem item (lit "snippet") in
  let? resource := Py.getitem snippet (lit "resourceId") in
  Py.getitem resource (lit "videoId").

(** A list comprehension [[f(x) for x in xs]]. *)
Fixpoint comprehension {A B} (f : A -> result B) (xs : list A) : result (list B) :=
  match xs with
  | [] => Ok []
  | x :: rest =>
    let? y := f x in
    let? ys := comprehension f rest in
    Ok (y :: ys)
  end.

Definition as_str (v : value) : result pystr :=
  match v with
  | VStr s => Ok s
  | _ => Raise TypeError
  end.

(** [",".join(video_ids)]: every element has to be a [str]. *)
Definition join_ids (video_ids : list value) : result pystr :=
  let? parts := comprehension as_str video_ids in
  Ok (PyStr.join (lit ",") parts).

Definition _get_latest_videos (self : client) (playlist_id : value)
    (max_results : Z) : M value :=
  playlist_data <- get_json (base_url self ++ lit "/playlistItems")
                     [ (lit "part", VStr (lit "snippet"));
                       (lit "playlistId", playlist_id);
                       (lit "maxResults", VInt max_results);
                       (lit "key", opt_value (api_key self)) ] ;;
  video_ids <- Eff.lift (let? items := Py.get playlist_data (lit "items") (VList []) in
                         let? elems := Py.iter items in
                         comprehension video_id_of elems) ;;
  match video_ids with
  | [] => Eff.ret (VList [])
  | _ :: _ =>
    ids <- Eff.lift (join_ids video_ids) ;;
    stats_data <- get_json (base_url self ++ lit "/videos")
                    [ (lit "part", VStr (lit "snippet,statistics"));
                      (lit "id", VStr ids);
                      (lit "key", opt_value (api_key self)) ] ;;
    Eff.lift (Py.get stats_data (lit "items") (VList []))
  end.

(** [float(v)] *)
Definition to_float (v : value) : result float :=
  match v with
  | VFloat f => Ok f
  | VInt z => PyNum.of_int z
  | VBool b => Ok (if b then 1 else 0)%float
  | VStr s => float_of_str s
  | _ => Raise TypeError
  end.

(** [float(stats.get(name, 0))] *)
Definition counter (stats : value) (name : pystr) : result float :=
  let? v := Py.get stats name (VInt 0) in
  to_float v.

(** [thumbnails.get("maxres") or thumbnails.get("standard")
     or thumbnails.get("high") or thumbnails.get("default")] *)
Definition best_thumbnail (thumbnails : value) : result value :=
  let? maxres := Py.get thumbnails (lit "maxres") VNone in
  if Py.truthy maxres then Ok maxres
  else
    let? standard := Py.get thumbnails (lit "standard") VNone in
    if Py.truthy standard then Ok standard
    else
      let? high := Py.get thumbnails (lit "high") VNone in
      if Py.truthy high then Ok high
      else Py.get thumbnails (lit "default") VNone.

(** [best_thumb.get("url") if best_thumb else ""], for the [best_thumb]
    chosen from [thumbnails]. *)
Definition select_thumbnail_url (thumbnails : value) : result value :=
  let? best_thumb := best_thumbnail thumbnails in
  if Py.truthy best_thumb then Py.get best_thumb (lit "url") VNone
  else Ok (VStr []).

(** [round(min(100, (likes + comments * 0.5) / max(views, 1) * 1200), 2)] *)
Definition score (views likes comments : float) : result num :=
  let? half := PyNum.mul comments (Float 0.5) in
  let? engagement := PyNum.add likes (Float half) in
  let? per_view := PyNum.truediv engagement (PyNum.max_ (Float views) (Int 1)) in
  let? scaled := PyNum.mul per_view (Int 1200) in
  Ok (PyNum.round_ (PyNum.min_ (Int 100) (Float scaled)) 2).

Definition _build_thumbnail_info (item : value) : result ThumbnailInfo :=
  let? snippet := Py.get item (lit "snippet") (VDict []) in
  let? stats := Py.get item (lit "statistics") (VDict []) in
  let? thumbnails := Py.get snippet (lit "thumbnails") (VDict []) in
  let? thumb_url := select_thumbnail_url thumbnails in
  let? views := counter stats (lit "viewCount") in
  let? likes := counter stats (lit "likeCount") in
  let? comments := counter stats (lit "commentCount") in
  let? ctr := score views likes comments in
  let? id := Py.get item (lit "id") VNone in
  let? ttl := Py.get snippet (lit "title") (VStr default_title) in
  let? descr := Py.get snippet (lit "description") (VStr []) in
  Ok {| video_id := id;
        title := ttl;
        description := descr;
        thumbnail_url := thumb_url;
        ctr_score := ctr |}.

Definition fetch_thumbnails (self : client) (channel_url : pystr)
    : M (list ThumbnailInfo) :=
  channel_id <- _resolve_channel_identifier self channel_url ;;
  if negb (Py.truthy channel_id) then Eff.raise (ValueError msg_unresolved)
  else
    uploads_playlist <- _get_uploads_playlist self channel_id ;;
    videos <- _get_latest_videos self uploads_playlist 12 ;;
    Eff.lift (let? items := Py.iter videos in
              comprehension _build_thumbnail_info items).

Definition fetch_single_thumbnail (self : client) (video : pystr)
    : M (option ThumbnailInfo) :=
  if negb (opt_truthy (api_key self)) then Eff.ret None
  else
    data <- get_json (base_url self ++ lit "/videos")
              [ (lit "part", VStr (lit "snippet,statistics"));
                (lit "id", VStr video);
                (lit "key", opt_value (api_key self)) ] ;;
    items <- Eff.lift (Py.get data (lit "items") (VList [])) ;;
    if negb (Py.truthy items) then Eff.ret None
    else
      Eff.lift (let? item := Py.first items in
                let? info := _build_thumbnail_info item in
                Ok (Some info)).

End Client.

End YouTubeClient.

(* ------------------------------------------------------------------ *)
(** * [GeminiClient]: creative suggestions *)

Module GeminiClient.

(** The outbound calls of the generation SDK. *)
Inductive call :=
| GenerateContent (model : pystr) (parts : list pystr)
| GenerateImages (model : pystr) (prompt : pystr).

(** The answer to [generate_content]: its [text] property may itself raise. *)
Record text_response := { text : result pystr }.

(** An element of [generated_images]: encoded image bytes, or something
    [base64.b64encode] rejects. *)
Inductive payload :=
| ImageBytes (data : list byte)
| NotBytes.

(** The answer to [generate_images]: its truth value, and what reading
    [generated_images] gives. *)
Record image_response := {
  response_truthy : bool;
  generated_images : result (list payload)
}.

(** The [google.generativeai] module: each call is answered from the
    history of calls, by a result or by an exception. *)
Record sdk := {
  generate_content : list call -> call -> result text_response;
  generate_images : list call -> call -> result image_response
}.

(** The client object; [genai] is [None] when the import failed. *)
Record client := { api_key : option pystr; genai : option sdk }.

Record GeminiResult := {
  prompt : pystr;
  idea : pystr;
  image_data_url : option pystr
}.

Definition base_prompt : pystr :=
  lit "Ты — продюсер YouTube. Проанализируй заголовок и описание ролика, предложи три сильных визуальных концепции превью и короткое CTA.".

Definition msg_use_key : pystr :=
  lit "Используйте GEMINI_API_KEY, чтобы получить идеи на основе контента.".

Definition no_link : pystr := lit "нет ссылки".

Definition default_placeholder_text : pystr := lit "Новая идея превью".

Definition b64_alphabet : pystr :=
  lit "ABCDEFGHIJKLMNOPQRSTUVWXYZabcdefghijklmnopqrstuvwxyz0123456789+/".

Definition b64_digit (n : N) : codepoint := nth (N.to_nat n) b64_alphabet 0%N.

(** [base64.b64encode(bs).decode("utf-8")] *)
Fixpoint b64encode (bs : list N) : pystr :=
  match bs with
  | [] => []
  | [a] =>
    [b64_digit (a / 4); b64_digit (a mod 4 * 16); 61; 61]%N
  | [a; b] =>
    [b64_digit (a / 4); b64_digit (a mod 4 * 16 + b / 16);
     b64_digit (b mod 16 * 4); 61]%N
  | a :: b :: c :: rest =>
    [b64_digit (a / 4); b64_digit (a mod 4 * 16 + b / 16);
     b64_digit (b mod 16 * 4 + c / 64); b64_digit (c mod 64)]%N
      ++ b64encode rest
  end.

(** [f"data:image/png;base64,{encoded}"] *)
Definition data_url (png : list byte) : pystr :=
  lit "data:image/png;base64," ++ b64encode (List.map Byte.to_N png).

Definition _image_to_data_url (image_bytes : payload) : result pystr :=
  match image_bytes with
  | ImageBytes data => Ok (data_url data)
  | NotBytes => Raise TypeError
  end.

Section Client.

(** [textwrap.fill(text, width=30)] *)
Variable textwrap_fill : pystr -> pystr.

(** The PNG encoding of the 1280x720 canvas of colour (15, 23, 42) with the
    given text drawn in white at (60, 320) in the default font, as the
    imaging library saves it, or the exception the library raises while it
    draws or saves. *)
Variable render_png : pystr -> result (list byte).

Definition M := @Eff.M call.

Definition _placeholder_image (text : pystr) : result pystr :=
  let filled := textwrap_fill text in
  let wrapped := if PyStr.truthy filled then filled else default_placeholder_text in
  let? png := render_png wrapped in
  Ok (data_url png).

(** The content block of the prompt. *)
Definition content_prompt_of (title description : pystr)
    (original_thumbnail : option pystr) : pystr :=
  lit "Заголовок: " ++ title ++ [10%N] ++ lit "Описание: "
    ++ firstn 500 description ++ [10%N]
    ++ lit "Текущее превью: "
    ++ (if opt_truthy original_thumbnail
        then match original_thumbnail with Some u => u | None => [] end
        else no_link).

(** The [try] block of the image request, run for its assignment to
    [data_url]; [current] is the value the variable has before it. *)
Definition request_image (g : sdk) (title current : pystr) : M pystr :=
  r <- Eff.call (generate_images g)
         (GenerateImages (lit "imagen-3.0-generate-001")
            (lit "YouTube thumbnail, " ++ title
               ++ lit ", cinematic, high contrast, eye-catching")) ;;
  image_response <- Eff.lift r ;;
  if response_truthy image_response then
    images <- Eff.lift (generated_images image_response) ;;
    match images with
    | first_image :: _ => Eff.lift (_image_to_data_url first_image)
    | [] => Eff.ret current
    end
  else Eff.ret current.

Definition propose_new_thumbnail (self : client) (title description : pystr)
    (original_thumbnail : option pystr) : M GeminiResult :=
  let content_prompt := content_prompt_of title description original_thumbnail in
  let idea_text := if negb (opt_truthy (api_key self)) then msg_use_key else [] in
  data_url <- Eff.lift (_placeholder_image title) ;;
  match (if opt_truthy (api_key self) then genai self else None) with
  | Some g =>
    r <- Eff.call (generate_content g)
           (GenerateContent (lit "gemini-1.5-flash-latest")
              [base_prompt; content_prompt]) ;;
    response <- Eff.lift r ;;
    response_text <- Eff.lift (text response) ;;
    let idea_text := PyStr.strip response_text in
    data_url <- Eff.try_or (request_image g title data_url) data_url ;;
    Eff.ret {| prompt := content_prompt;
               idea := idea_text;
               image_data_url := Some data_url |}
  | None =>
    Eff.ret {| prompt := content_prompt;
               idea := idea_text;
               image_data_url := Some data_url |}
  end.

End Client.

End GeminiClient.

(* ------------------------------------------------------------------ *)
(** * The request handlers of [app/main.py] *)

Module Main.

(** How a handler ends when it does not render: with the [HTTPException] it
    raises, or with an exception it does not handle. *)
Inductive failure :=
| HTTPException (status_code : Z) (detail : pystr)
| Unhandled (e : exn).

Inductive outcome (A : Type) :=
| Rendered (context : A)
| Failed (f : failure).
Arguments Rendered {A} context.
Arguments Failed {A} f.

(** The context given to the [index.html] template, without the request
    object; a key the handler does not set is [None]. *)
Record context := {
  thumbnails : option (list YouTubeClient.ThumbnailInfo);
  channel_url : option pystr;
  regenerated_for : option pystr;
  gemini_result : option GeminiClient.GeminiResult
}.

Definition msg_upstream : pystr := lit "Ошибка при обращении к YouTube API".

(** [get_youtube_client] and [get_gemini_client], given what [os.getenv]
    returns for the key and, for the second, the imported SDK. *)
Definition get_youtube_client (youtube_api_key : option pystr)
    : YouTubeClient.client :=
  YouTubeClient.init youtube_api_key.

Definition get_gemini_client (gemini_api_key : option pystr)
    (genai : option GeminiClient.sdk) : GeminiClient.client :=
  {| GeminiClient.api_key := gemini_api_key; GeminiClient.genai := genai |}.

(** The two logs of outbound calls a handler extends. *)
Definition logs : Type := list YouTubeClient.request * list GeminiClient.call.

Section Handlers.

Variable unicode_alnum : codepoint -> bool.
Variable float_of_str : pystr -> result float.
Variable world
  : list YouTubeClient.request -> YouTubeClient.request -> YouTubeClient.outcome.
Variable textwrap_fill : pystr -> pystr.
Variable render_png : pystr -> result (list byte).

(** [str(exc)] for a [JSONDecodeError], as the decoder words it. *)
Variable json_error_text : pystr.

(** [str(v)] for a value that is neither a [str] nor [None]. *)
Variable str_of_value : value -> pystr.

(** [index] *)
Definition index : outcome context :=
  Rendered {| thumbnails := None;
              channel_url := None;
              regenerated_for := None;
              gemini_result := None |}.

(** [fetch_channel]: [ValueError] (of which [JSONDecodeError] is a subclass)
    becomes status 400 with the text of the error, [httpx.HTTPError] status
    502; anything else is not handled. *)
Definition fetch_channel (yt_client : YouTubeClient.client) (url : pystr)
    (history : list YouTubeClient.request)
    : outcome context * list YouTubeClient.request :=
  match YouTubeClient.fetch_thumbnails unicode_alnum float_of_str world
          yt_client url history with
  | (Ok infos, log) =>
    (Rendered {| thumbnails := Some infos;
                 channel_url := Some url;
                 regenerated_for := None;
                 gemini_result := None |}, log)
  | (Raise (ValueError msg), log) => (Failed (HTTPException 400 msg), log)
  | (Raise JSONDecodeError, log) =>
    (Failed (HTTPException 400 json_error_text), log)
  | (Raise HTTPError, log) => (Failed (HTTPException 502 msg_upstream), log)
  | (Raise e, log) => (Failed (Unhandled e), log)
  end.

(** [original.thumbnail_url if original else None], as the text the prompt
    formats it to; a falsy value gives way to the no-link marker like
    [None] does. *)
Definition original_thumbnail_of (original : option YouTubeClient.ThumbnailInfo)
    : option pystr :=
  match original with
  | None => None
  | Some info =>
    match YouTubeClient.thumbnail_url info with
    | VStr s => Some s
    | VNone => None
    | v => if Py.truthy v then Some (str_of_value v) else None
    end
  end.

(** [thumbnails or None] *)
Definition or_none {A} (l : list A) : option (list A) :=
  match l with
  | [] => None
  | _ :: _ => Some l
  end.

(** [regenerate_thumbnail]; [query_channel_url] is the [channel_url] query
    parameter, [None] when the request has none. *)
Definition regenerate_thumbnail (yt_client : YouTubeClient.client)
    (gemini_client : GeminiClient.client) (query_channel_url : option pystr)
    (video_id title description : pystr) (history : logs)
    : outcome context * logs :=
  let (requests, calls) := history in
  match YouTubeClient.fetch_single_thumbnail float_of_str world
          yt_client video_id requests with
  | (Raise e, requests1) => (Failed (Unhandled e), (requests1, calls))
  | (Ok original, requests1) =>
    match GeminiClient.propose_new_thumbnail textwrap_fill render_png
            gemini_client title description (original_thumbnail_of original)
            calls with
    | (Raise e, calls1) => (Failed (Unhandled e), (requests1, calls1))
    | (Ok result, calls1) =>
      let (thumbnails, requests2) :=
        match query_channel_url with
        | Some url =>
          Eff.try_or
            (YouTubeClient.fetch_thumbnails unicode_alnum float_of_str world
               yt_client url) [] requests1
        | None => (Ok [], requests1)
        end in
      (match thumbnails with
       | Ok infos =>
         Rendered {| thumbnails := or_none infos;
                     channel_url := query_channel_url;
                     regenerated_for := Some video_id;
                     gemini_result := Some result |}
       | Raise e => Failed (Unhandled e)
       end, (requests2, calls1))
    end
  end.

(** [health] *)
Definition health : list (pystr * value) := [(lit "status", VStr (lit "ok"))].

End Handlers.

End Main.

(* ================================================================== *)
(** * Properties *)

(** ** String literals *)

Example lit_ascii : lit "UC@" = [85; 67; 64]%N.
Proof. reflexivity. Qed.

Example lit_cyrillic : lit "нет" = [1085; 1077; 1090]%N.
Proof. reflexivity. Qed.

(** ** The channel resolver *)

Section ResolverFacts.

Variable unicode_alnum : codepoint -> bool.

(** A literal channel ID: [UC] followed by exactly 22 characters of [[\w-]]. *)
Definition is_channel_id (g : pystr) : Prop :=
  exists rest, g = 85%N :: 67%N :: rest /\ List.length rest = 22%nat
               /\ Forall (fun c => Re.id_char unicode_alnum c = true) rest.

(** [s] contains a substring that is a literal channel ID. *)
Definition contains_channel_id (s : pystr) : Prop :=
  exists pre g post, s = pre ++ g ++ post /\ is_channel_id g.

Lemma repeat_here_prefix n p a b :
  List.length a = n -> Forall (fun c => p c = true) a ->
  Re.repeat_here n p (a ++ b) = true.
Proof.
  revert a. induction n as [|n IH]; intros a Hlen Hall; [reflexivity|].
  destruct a as [|c a]; [discriminate|].
  inversion Hall; subst. simpl in *. rewrite H1. simpl.
  apply IH; [lia | assumption].
Qed.

Lemma repeat_here_split n p s :
  Re.repeat_here n p s = true ->
  exists a b, s = a ++ b /\ List.length a = n /\ Forall (fun c => p c = true) a.
Proof.
  revert s. induction n as [|n IH]; intros s H.
  - exists [], s. repeat split. constructor.
  - destruct s as [|c s]; [discriminate|]. simpl in H.
    apply andb_true_iff in H as [Hc Hr].
    destruct (IH _ Hr) as (a & b & -> & Hlen & Hall).
    exists (c :: a), b. repeat split; simpl; auto.
Qed.

Lemma channel_id_here_prefix g post :
  is_channel_id g -> Re.channel_id_here unicode_alnum (g ++ post) = true.
Proof.
  intros (rest & -> & Hlen & Hall).
  change (Re.repeat_here 22 (Re.id_char unicode_alnum) (rest ++ post) = true).
  apply repeat_here_prefix; assumption.
Qed.

Lemma channel_id_here_split s :
  Re.channel_id_here unicode_alnum s = true ->
  exists post, s = firstn 24 s ++ post /\ is_channel_id (firstn 24 s).
Proof.
  unfold Re.channel_id_here. destruct s as [|c0 [|c1 rest]]; try discriminate.
  intros H. apply andb_true_iff in H as [H Hr]. apply andb_true_iff in H as [H0 H1].
  apply N.eqb_eq in H0, H1. subst.
  destruct (repeat_here_split _ _ _ Hr) as (a & b & -> & Hlen & Hall).
  assert (Hf : firstn 24 (85%N :: 67%N :: a ++ b) = 85%N :: 67%N :: a).
  { change (firstn 24 (85%N :: 67%N :: a ++ b)) with (85%N :: 67%N :: firstn 22 (a ++ b)).
    rewrite <- Hlen at 1. rewrite firstn_app, firstn_all, Nat.sub_diag. simpl.
    now rewrite app_nil_r. }
  rewrite Hf. exists b. split; [reflexivity|]. exists a. auto.
Qed.

Lemma is_channel_id_length g : is_channel_id g -> List.length g = 24%nat.
Proof. intros (rest & -> & Hlen & _). simpl. now rewrite Hlen. Qed.

Lemma search_channel_id_unfold s :
  Re.search_channel_id unicode_alnum s =
  if Re.channel_id_here unicode_alnum s then Some (firstn 24 s)
  else match s with
       | [] => None
       | _ :: s' => Re.search_channel_id unicode_alnum s'
       end.
Proof. destruct s; reflexivity. Qed.

(** The search returns the leftmost literal channel ID. *)
Lemma search_channel_id_leftmost pre g post :
  is_channel_id g ->
  exists pre' g' post',
    Re.search_channel_id unicode_alnum (pre ++ g ++ post) = Some g'
    /\ pre ++ g ++ post = pre' ++ g' ++ post'
    /\ is_channel_id g'
    /\ (List.length pre' <= List.length pre)%nat
    /\ (List.length pre' = List.length pre -> g' = g).
Proof.
  intros Hg. induction pre as [|c pre IH].
  - exists [], g, post. simpl. rewrite search_channel_id_unfold.
    rewrite (channel_id_here_prefix g post Hg).
    rewrite <- (is_channel_id_length g Hg) at 1.
    rewrite firstn_app, firstn_all, Nat.sub_diag. simpl. rewrite app_nil_r.
    repeat split; auto.
  - rewrite search_channel_id_unfold.
    destruct (Re.channel_id_here unicode_alnum ((c :: pre) ++ g ++ post)) eqn:Hhere.
    + destruct (channel_id_here_split _ Hhere) as (post' & Heq & Hid).
      exists [], (firstn 24 ((c :: pre) ++ g ++ post)), post'.
      split; [reflexivity|]. split; [exact Heq|]. split; [exact Hid|].
      simpl. split; [lia | discriminate].
    + simpl. destruct IH as (pre' & g' & post' & Hs & Heq & Hid & Hle & Hsame).
      exists (c :: pre'), g', post'. simpl.
      split; [exact Hs|]. split; [now rewrite Heq|]. split; [exact Hid|].
      split; [lia|]. intros H. apply Hsame. lia.
Qed.

Lemma search_channel_id_none s :
  ~ contains_channel_id s -> Re.search_channel_id unicode_alnum s = None.
Proof.
  induction s as [|c s IH]; intros Hno.
  - reflexivity.
  - rewrite search_channel_id_unfold.
    destruct (Re.channel_id_here unicode_alnum (c :: s)) eqn:Hhere.
    + exfalso. apply Hno. destruct (channel_id_here_split _ Hhere) as (post & Heq & Hid).
      exists [], (firstn 24 (c :: s)), post. auto.
    + apply IH. intros (pre & g & post & -> & Hid). apply Hno.
      exists (c :: pre), g, post. auto.
Qed.


Lemma search_channel_id_none_inv s :
  Re.search_channel_id unicode_alnum s = None -> ~ contains_channel_id s.
Proof.
  intros Hnone (pre & g & post & -> & Hid).
  destruct (search_channel_id_leftmost pre g post Hid) as (? & ? & ? & Hs & _).
  congruence.
Qed.

(** The match of the search starts where no other literal channel ID
    starts before it. *)
Lemma search_channel_id_first s g :
  Re.search_channel_id unicode_alnum s = Some g ->
  exists pre post,
    s = pre ++ g ++ post
    /\ is_channel_id g
    /\ forall pre0 g0 post0,
         s = pre0 ++ g0 ++ post0 -> is_channel_id g0 ->
         (List.length pre <= List.length pre0)%nat.
Proof.
  induction s as [|c s IH]; rewrite search_channel_id_unfold.
  - destruct (Re.channel_id_here unicode_alnum []) eqn:Hh; [|discriminate].
    discriminate Hh.
  - destruct (Re.channel_id_here unicode_alnum (c :: s)) eqn:Hh.
    + intros [= <-]. destruct (channel_id_here_split _ Hh) as (post & Heq & Hid).
      exists [], post. split; [exact Heq|]. split; [exact Hid|].
      intros pre0 g0 post0 _ _. simpl. lia.
    + intros Hs. destruct (IH Hs) as (pre & post & -> & Hid & Hfirst).
      exists (c :: pre), post. split; [reflexivity|]. split; [exact Hid|].
      intros pre0 g0 post0 Heq Hg0. destruct pre0 as [|c0 pre0].
      * exfalso. simpl in Heq. rewrite Heq in Hh.
        now rewrite (channel_id_here_prefix g0 post0 Hg0) in Hh.
      * simpl in Heq. injection Heq as _ Heq. simpl.
        apply le_n_S. exact (Hfirst pre0 g0 post0 Heq Hg0).
Qed.

(** [s] contains an [@handle] token: an [@] followed by a handle character. *)
Definition contains_handle (s : pystr) : Prop :=
  exists pre c rest, s = pre ++ 64%N :: c :: rest /\ Re.handle_char c = true.

Lemma search_handle_found s :
  contains_handle s -> exists h, Re.search_handle s = Some h /\ PyStr.truthy h = true.
Proof.
  intros (pre & c & rest & -> & Hc). induction pre as [|d pre IH].
  - exists (c :: Re.take_while Re.handle_char rest). simpl. rewrite Hc. auto.
  - simpl.
    destruct ((d =? 64)%N && match pre ++ 64%N :: c :: rest with
                             | [] => false
                             | d0 :: _ => Re.handle_char d0
                             end) eqn:Hd.
    + apply andb_true_iff in Hd as [_ Hd].
      destruct (pre ++ 64%N :: c :: rest) as [|d0 l]; [discriminate|].
      exists (d0 :: Re.take_while Re.handle_char l). simpl. rewrite Hd. auto.
    + exact IH.
Qed.

Lemma lstrip_char_truthy c s :
  (exists d, In d s /\ d <> c) -> PyStr.truthy (PyStr.lstrip_char c s) = true.
Proof.
  intros (d & Hin & Hd). induction s as [|e s IH]; [destruct Hin|].
  simpl. destruct (N.eqb_spec e c) as [->|Hne].
  - apply IH. destruct Hin as [->|Hin]; [contradiction | assumption].
  - reflexivity.
Qed.

Lemma search_handle_truthy s h :
  Re.search_handle s = Some h -> PyStr.truthy h = true.
Proof.
  induction s as [|d s IH]; [discriminate|]. simpl.
  destruct ((d =? 64)%N && match s with
                           | [] => false
                           | d0 :: _ => Re.handle_char d0
                           end) eqn:Hd.
  - apply andb_true_iff in Hd as [_ Hd]. destruct s as [|d0 l]; [discriminate|].
    intros [= <-]. simpl. now rewrite Hd.
  - exact IH.
Qed.

End ResolverFacts.

Section Resolver.

Import YouTubeClient.

Variable unicode_alnum : codepoint -> bool.
Variable world : list request -> request -> outcome.

Let resolve := _resolve_channel_identifier unicode_alnum world.

Lemma resolve_of_extracted_id self s g :
  _extract_channel_id unicode_alnum s = Some g -> PyStr.truthy g = true ->
  Eff.run (resolve self s) = (Ok (VStr g), []).
Proof.
  intros He Hg. unfold resolve, _resolve_channel_identifier, Eff.run.
  rewrite He. simpl. rewrite Hg. reflexivity.
Qed.

Lemma is_channel_id_truthy g : is_channel_id unicode_alnum g -> PyStr.truthy g = true.
Proof. intros (rest & -> & _). reflexivity. Qed.

(** C6. A reference that contains a literal channel ID (any prefix, any
    suffix, an [@handle] token or not) resolves to a literal channel ID it
    contains, the leftmost one, and no request is issued; the ID returned
    is the given one whenever no other starts before it. *)
Theorem resolve_returns_embedded_channel_id :
  forall (self : client) (pre g post : pystr),
    is_channel_id unicode_alnum g ->
    exists pre' g' post',
      pre ++ g ++ post = pre' ++ g' ++ post'
      /\ is_channel_id unicode_alnum g'
      /\ (List.length pre' <= List.length pre)%nat
      /\ (List.length pre' = List.length pre -> g' = g)
      /\ Eff.run (resolve self (pre ++ g ++ post)) = (Ok (VStr g'), []).
Proof.
  intros self pre g post Hg.
  destruct (search_channel_id_leftmost unicode_alnum pre g post Hg)
    as (pre' & g' & post' & Hs & Heq & Hid & Hle & Hsame).
  exists pre', g', post'. repeat (split; [assumption|]).
  apply resolve_of_extracted_id.
  - unfold _extract_channel_id. now rewrite Hs.
  - now apply is_channel_id_truthy.
Qed.

(** C10 (amended). A string that starts with [UC], has at least 24
    characters and contains no literal channel ID is returned whole, and no
    request is issued; when it does contain one, the leftmost literal
    channel ID (24 characters, starting where no other one starts before
    it) is returned instead, and no request is issued either. *)
Theorem resolve_long_UC_string :
  forall (self : client) (s : pystr),
    PyStr.startswith s (lit "UC") = true ->
    (24 <= List.length s)%nat ->
    (~ contains_channel_id unicode_alnum s ->
       Eff.run (resolve self s) = (Ok (VStr s), []))
    /\ (contains_channel_id unicode_alnum s ->
        exists pre g post,
          s = pre ++ g ++ post /\ is_channel_id unicode_alnum g
          /\ List.length g = 24%nat
          /\ (forall pre0 g0 post0,
                s = pre0 ++ g0 ++ post0 -> is_channel_id unicode_alnum g0 ->
                (List.length pre <= List.length pre0)%nat)
          /\ Eff.run (resolve self s) = (Ok (VStr g), [])).
Proof.
  intros self s Hstart Hlen. split.
  - intros Hno. apply resolve_of_extracted_id.
    + unfold _extract_channel_id.
      rewrite (search_channel_id_none unicode_alnum s Hno), Hstart.
      replace (24 <=? Z.of_nat (List.length s)) with true; [reflexivity|].
      symmetry. apply Z.leb_le. lia.
    + destruct s; [discriminate | reflexivity].
  - intros (pre0 & g0 & post0 & Heq0 & Hg0).
    destruct (Re.search_channel_id unicode_alnum s) as [g|] eqn:Hs.
    + destruct (search_channel_id_first unicode_alnum s g Hs)
        as (pre & post & Heq & Hid & Hfirst).
      exists pre, g, post. split; [exact Heq|]. split; [exact Hid|].
      split; [now apply (is_channel_id_length unicode_alnum)|].
      split; [exact Hfirst|].
      apply resolve_of_extracted_id.
      * unfold _extract_channel_id. now rewrite Hs.
      * now apply is_channel_id_truthy.
    + exfalso. apply (search_channel_id_none_inv unicode_alnum s Hs).
      now exists pre0, g0, post0.
Qed.

(** C4 (amended). A reference that contains an [@handle] token, or begins
    with [@] and has a character other than [@], that contains no literal
    channel ID and is not a string of 24 or more characters starting with
    [UC], fails without a configured key with the error that asks for the
    key, and no request is issued. *)
Theorem handle_without_key_needs_configuration :
  forall (self : client) (s : pystr),
    contains_handle s
    \/ (PyStr.startswith s (lit "@") = true /\ exists c, In c s /\ c <> 64%N) ->
    ~ contains_channel_id unicode_alnum s ->
    ~ (PyStr.startswith s (lit "UC") = true /\ (24 <= List.length s)%nat) ->
    opt_truthy (api_key self) = false ->
    Eff.run (resolve self s) = (Raise (ValueError msg_handle_needs_key), []).
Proof.
  intros self s Hhandle Hno Hnot Hkey.
  assert (He : _extract_channel_id unicode_alnum s = None).
  { unfold _extract_channel_id. rewrite (search_channel_id_none unicode_alnum s Hno).
    destruct (PyStr.startswith s (lit "UC")) eqn:Hs; [|reflexivity].
    destruct (24 <=? Z.of_nat (List.length s)) eqn:Hl; [|reflexivity].
    exfalso. apply Hnot. split; [reflexivity|]. apply Z.leb_le in Hl. lia. }
  assert (Hh : exists h, _extract_handle s = Some h /\ PyStr.truthy h = true).
  { unfold _extract_handle. destruct (Re.search_handle s) as [h|] eqn:Hs.
    - exists h. split; [reflexivity|]. now apply (search_handle_truthy s).
    - destruct Hhandle as [Hc | [Hat Hother]].
      + destruct (search_handle_found s Hc) as (h & Hs' & _). congruence.
      + rewrite Hat. eexists. split; [reflexivity|]. now apply lstrip_char_truthy. }
  destruct Hh as (h & Hh & Ht).
  unfold resolve, _resolve_channel_identifier, Eff.run.
  rewrite He, Hh. simpl. rewrite Ht, Hkey. reflexivity.
Qed.

(** C5 (amended). The channel URL whose last segment is [UC] followed by 22
    characters resolves to that segment, and no request is issued; the URL
    of the example, whose last segment has only 21 characters after [UC],
    resolves to no identifier ([None]), no request is issued either, and the
    aggregation then fails with the error that asks for a channel link. *)
Theorem resolve_channel_url_example :
  forall (self : client) (float_of_str : pystr -> result float),
    Eff.run (resolve self (lit "https://www.youtube.com/channel/UCabcdefghijklmnopqrstuv"))
      = (Ok (VStr (lit "UCabcdefghijklmnopqrstuv")), [])
    /\ Eff.run (resolve self (lit "https://www.youtube.com/channel/UCabcdefghijklmnopqrstu"))
       = (Ok VNone, [])
    /\ Eff.run (fetch_thumbnails unicode_alnum float_of_str world self
                  (lit "https://www.youtube.com/channel/UCabcdefghijklmnopqrstu"))
       = (Raise (ValueError msg_unresolved), []).
Proof. intros self float_of_str. repeat split; vm_compute; reflexivity. Qed.

End Resolver.

(** ** Signs through the binary64 operations *)

(** Not negative: a NaN, a zero of either sign, a positive finite value or
    plus infinity. *)
Definition sf_not_negative (x : spec_float) : bool :=
  match x with
  | S754_finite true _ _ | S754_infinity true => false
  | _ => true
  end.

(** Strictly positive: a positive finite value or plus infinity. *)
Definition sf_positive (x : spec_float) : bool :=
  match x with
  | S754_finite false _ _ | S754_infinity false => true
  | _ => false
  end.

Lemma binary_round_aux_not_negative m e l :
  sf_not_negative (binary_round_aux prec emax false m e l) = true.
Proof.
  unfold binary_round_aux.
  destruct (shr_fexp prec emax m e l) as [mrs' e'].
  destruct (shr_fexp prec emax _ e' loc_Exact) as [mrs'' e''].
  destruct (shr_m mrs''); [reflexivity | | reflexivity].
  destruct (e'' <=? emax - prec); reflexivity.
Qed.

Lemma SFmul_not_negative x y :
  sf_not_negative x = true -> sf_positive y = true ->
  sf_not_negative (SF64mul x y) = true.
Proof.
  destruct x as [sx|[|]| |[|] mx ex], y as [sy|[|]| |[|] my ey];
    try discriminate; intros _ _; try reflexivity.
  apply binary_round_aux_not_negative.
Qed.

Lemma SFdiv_not_negative x y :
  sf_not_negative x = true -> sf_positive y = true ->
  sf_not_negative (SF64div x y) = true.
Proof.
  destruct x as [sx|[|]| |[|] mx ex], y as [sy|[|]| |[|] my ey];
    try discriminate; intros _ _; try reflexivity.
  unfold SF64div, SFdiv.
  destruct (SFdiv_core_binary prec emax (Z.pos mx) ex (Z.pos my) ey) as [[mz ez] lz].
  apply binary_round_aux_not_negative.
Qed.

Lemma SFadd_not_negative x y :
  sf_not_negative x = true -> sf_not_negative y = true ->
  sf_not_negative (SF64add x y) = true.
Proof.
  destruct x as [[|]|[|]| |[|] mx ex], y as [[|]|[|]| |[|] my ey];
    try discriminate; intros _ _; try reflexivity.
  unfold SF64add, SFadd, cond_Zopp, binary_normalize, binary_round.
  cbn [Z.add].
  destruct (shl_align _ _ _) as [mz ez].
  apply binary_round_aux_not_negative.
Qed.

Lemma SFmul_comm x y : SF64mul x y = SF64mul y x.
Proof.
  destruct x as [sx|sx| |sx mx ex], y as [sy|sy| |sy my ey]; simpl;
    try reflexivity; try (now rewrite xorb_comm).
  now rewrite xorb_comm, Pos.mul_comm, Z.add_comm.
Qed.

Lemma mul_comm (x y : float) : (x * y)%float = (y * x)%float.
Proof. apply Prim2SF_inj. rewrite !mul_spec. apply SFmul_comm. Qed.

Lemma leb_zero_not_negative (x : float) :
  PrimFloat.leb 0 x = true -> sf_not_negative (Prim2SF x) = true.
Proof.
  rewrite leb_spec. change (Prim2SF 0) with (S754_zero false).
  destruct (Prim2SF x) as [s|[|]| |[|] m e]; simpl; auto.
Qed.

(** ** The score *)

(** Rounding goes by the exact binary value: 0.125 is a tie and goes to the
    even hundredth, 2.675 is stored below the tie, and the sign of a value
    that rounds to zero is kept. *)
Example round_float_tie : PyNum.round_float 0.125 2 = 0.12%float.
Proof. vm_compute. reflexivity. Qed.

Example round_float_below_tie : PyNum.round_float 2.675 2 = 2.67%float.
Proof. vm_compute. reflexivity. Qed.

Example round_float_keeps_sign : PyNum.round_float (-0.001) 2 = neg_zero.
Proof. vm_compute. reflexivity. Qed.

(** [min(100, x)] is the [int] 100 when [x] is a NaN. *)
Example min_of_nan : PyNum.min_ (Int 100) (Float nan) = Int 100.
Proof. vm_compute. reflexivity. Qed.

Lemma of_int_1200 : PyNum.of_int 1200 = Ok 1200%float.
Proof. reflexivity. Qed.

(** [max(views, 1)] is never zero, so the division never raises. *)
Lemma divisor_not_zero (views : float) :
  exists d, PyNum.operand (PyNum.max_ (Float views) (Int 1)) = Ok d
            /\ PrimFloat.eqb d 0 = false
            /\ (PrimFloat.leb 0 views = true -> sf_positive (Prim2SF d) = true).
Proof.
  unfold PyNum.max_. destruct (PyNum.lt (Float views) (Int 1)) eqn:Hlt.
  - exists 1%float. repeat split.
  - exists views. split; [reflexivity|].
    rewrite eqb_spec, leb_spec. change (Prim2SF 0) with (S754_zero false).
    unfold PyNum.lt, PyNum.compare_int in Hlt.
    destruct (Prim2SF views) as [s|[|]| |[|] m e]; try discriminate;
      split; try reflexivity; try discriminate.
Qed.

(** [0 <= n <= 100] *)
Definition in_percent_range (n : num) : bool :=
  PyNum.le (Int 0) n && PyNum.le n (Int 100).

(** The [float] nearest to [n / 100]. *)
Definition hundredth (n : positive) : float :=
  SF2Prim (SFdiv prec emax (S754_finite false n 0) (S754_finite false 100 0)).

Fixpoint all_upto (n : nat) (P : positive -> bool) : bool :=
  match n with
  | O => true
  | S k => P (Pos.of_nat n) && all_upto k P
  end.

Lemma all_upto_spec n P :
  all_upto n P = true -> forall p, (Pos.to_nat p <= n)%nat -> P p = true.
Proof.
  induction n as [|k IH]; intros H p Hp.
  - pose proof (Pos2Nat.is_pos p). lia.
  - cbn [all_upto] in H. apply andb_true_iff in H as [Hn Hk].
    destruct (Nat.eq_dec (Pos.to_nat p) (S k)) as [Heq|Hne].
    + rewrite <- Heq, Pos2Nat.id in Hn. exact Hn.
    + apply IH; [assumption | lia].
Qed.

Lemma hundredths_in_range :
  all_upto (Pos.to_nat 10000) (fun n => in_percent_range (Float (hundredth n))) = true.
Proof. vm_compute. reflexivity. Qed.

Lemma round_half_even_bounds a b k :
  0 <= a -> 0 < b -> a < k * b -> 0 <= PyNum.round_half_even a b <= k.
Proof.
  intros Ha Hb Hk. unfold PyNum.round_half_even.
  assert (Hq : 0 <= a / b) by (apply Z.div_pos; lia).
  assert (Hq' : a / b < k) by (apply Z.div_lt_upper_bound; lia).
  destruct (2 * (a mod b) ?= b); [destruct (Z.even (a / b))| |]; lia.
Qed.

Lemma round_float_in_range (x : float) :
  sf_not_negative (Prim2SF x) = true ->
  PyNum.lt (Float x) (Int 100) = true ->
  in_percent_range (Float (PyNum.round_float x 2)) = true.
Proof.
  intros Hsign Hlt.
  unfold PyNum.lt, PyNum.compare_int in Hlt.
  unfold PyNum.round_float.
  destruct (Prim2SF x) as [s|[|]| |[|] m e] eqn:Hx; try discriminate.
  - unfold in_percent_range, PyNum.le, PyNum.compare_int. now rewrite Hx.
  - destruct (0 <=? e) eqn:He.
    + unfold in_percent_range, PyNum.le, PyNum.compare_int. rewrite Hx, He.
      apply Z.leb_le in He.
      assert (0 < Z.pos m * 2 ^ e) by (apply Z.mul_pos_pos; [lia | apply Z.pow_pos_nonneg; lia]).
      destruct (Z.pos m * 2 ^ e ?= 100) eqn:Hc; try discriminate.
      destruct (Z.compare_spec (Z.pos m * 2 ^ e) 0); first [lia | reflexivity].
    + apply Z.leb_gt in He.
      change (Z.to_pos (10 ^ Z.of_nat 2)) with 100%positive.
      assert (Hb : 0 < 2 ^ (- e)) by (apply Z.pow_pos_nonneg; lia).
      assert (Hm : Z.pos m < 100 * 2 ^ (- e)).
      { destruct (Z.compare_spec (Z.pos m) (100 * 2 ^ (- e))); try discriminate. assumption. }
      pose proof (round_half_even_bounds (Z.pos m * 100) (2 ^ (- e)) 10000) as Hr.
      destruct (PyNum.round_half_even (Z.pos m * 100) (2 ^ (- e))) as [|n|n];
        try reflexivity.
      apply (all_upto_spec _ _ hundredths_in_range). lia.
Qed.

Section Score.

Import YouTubeClient.

Lemma score_unfold (views likes comments : float) :
  exists d,
    PyNum.operand (PyNum.max_ (Float views) (Int 1)) = Ok d
    /\ PrimFloat.eqb d 0 = false
    /\ (PrimFloat.leb 0 views = true -> sf_positive (Prim2SF d) = true)
    /\ score views likes comments =
       Ok (PyNum.round_
             (PyNum.min_ (Int 100)
                (Float ((likes + comments * 0.5) / d * 1200)%float)) 2).
Proof.
  destruct (divisor_not_zero views) as (d & Hd & Hz & Hpos).
  exists d. repeat (split; [assumption|]).
  unfold score, PyNum.mul, PyNum.add, PyNum.truediv.
  cbn [PyNum.operand rbind]. rewrite Hd. cbn [rbind]. rewrite Hz, of_int_1200.
  reflexivity.
Qed.

(** The score is computed for every triple of counters: no division by
    zero, no overflow in a conversion. *)
Lemma score_total (views likes comments : float) :
  exists s, score views likes comments = Ok s.
Proof.
  destruct (score_unfold views likes comments) as (d & _ & _ & _ & ->). eauto.
Qed.

Lemma score_in_range (views likes comments : float) :
  PrimFloat.leb 0 views = true ->
  PrimFloat.leb 0 likes = true ->
  PrimFloat.leb 0 comments = true ->
  exists s, score views likes comments = Ok s /\ in_percent_range s = true.
Proof.
  intros Hv Hl Hc.
  destruct (score_unfold views likes comments) as (d & _ & _ & Hd & ->).
  eexists. split; [reflexivity|].
  unfold PyNum.min_.
  destruct (PyNum.lt (Float ((likes + comments * 0.5) / d * 1200)%float) (Int 100))
    eqn:Hlt; [|reflexivity].
  cbn [PyNum.round_]. apply round_float_in_range; [|exact Hlt].
  rewrite mul_spec, div_spec, add_spec, mul_spec.
  apply SFmul_not_negative; [|reflexivity].
  apply SFdiv_not_negative; [|now apply Hd].
  apply SFadd_not_negative; [now apply leb_zero_not_negative|].
  apply SFmul_not_negative; [now apply leb_zero_not_negative | reflexivity].
Qed.

End Score.

(** ** The normalised entry *)

Ltac bind_inv H :=
  match type of H with
  | rbind ?c _ = Ok _ =>
    let E := fresh "E" in
    destruct c eqn:E; cbn [rbind] in H; [|discriminate H]
  end.

Section Normalize.

Import YouTubeClient.

Variable float_of_str : pystr -> result float.

Let build := _build_thumbnail_info float_of_str.

(** [float(stats.get(...))] of the three counters of a record. *)
Definition counters_of (item : value) : result (float * float * float) :=
  let? stats := Py.get item (lit "statistics") (VDict []) in
  let? views := counter float_of_str stats (lit "viewCount") in
  let? likes := counter float_of_str stats (lit "likeCount") in
  let? comments := counter float_of_str stats (lit "commentCount") in
  Ok (views, likes, comments).

(** [item.get("snippet", {}).get("thumbnails", {})] *)
Definition thumbnails_of (item : value) : result value :=
  let? snippet := Py.get item (lit "snippet") (VDict []) in
  Py.get snippet (lit "thumbnails") (VDict []).

Lemma build_inv item info :
  build item = Ok info ->
  exists thumbnails views likes comments,
    thumbnails_of item = Ok thumbnails
    /\ select_thumbnail_url thumbnails = Ok (thumbnail_url info)
    /\ counters_of item = Ok (views, likes, comments)
    /\ score views likes comments = Ok (ctr_score info).
Proof.
  unfold build, _build_thumbnail_info, thumbnails_of, counters_of. intros H.
  repeat bind_inv H. injection H as <-. cbn [thumbnail_url ctr_score rbind].
  repeat match goal with
         | E : ?c = Ok _ |- context [?c] => rewrite E; cbn [rbind]
         end.
  eauto 10.
Qed.


Lemma le_zero_leb (x : float) :
  PyNum.le (Int 0) (Float x) = true -> PrimFloat.leb 0 x = true.
Proof.
  rewrite leb_spec. change (Prim2SF 0) with (S754_zero false).
  unfold PyNum.le, PyNum.compare_int.
  destruct (Prim2SF x) as [s|[|]| |[|] m e]; try discriminate; try reflexivity.
  destruct (0 <=? e) eqn:He; [|discriminate].
  apply Z.leb_le in He.
  assert (0 < 2 ^ e) by (apply Z.pow_pos_nonneg; lia).
  destruct (Z.compare_spec (Z.neg m * 2 ^ e) 0); try discriminate; nia.
Qed.

(** The counters of the record are numbers, none below zero. *)
Definition counters_not_negative (item : value) : Prop :=
  exists views likes comments,
    counters_of item = Ok (views, likes, comments)
    /\ PyNum.le (Int 0) (Float views) = true
    /\ PyNum.le (Int 0) (Float likes) = true
    /\ PyNum.le (Int 0) (Float comments) = true.

(** C2. The score of a record whose counters are not negative lies in
    [0, 100]; a view counter of zero is included (the divisor is then 1). *)
Theorem ctr_score_between_0_and_100 :
  forall (item : value) (info : ThumbnailInfo),
    counters_not_negative item ->
    build item = Ok info ->
    in_percent_range (ctr_score info) = true.
Proof.
  intros item info (views & likes & comments & Hc & Hv & Hl & Hm) Hb.
  destruct (build_inv item info Hb) as (_ & v & l & c & _ & _ & Hc' & Hs).
  rewrite Hc in Hc'. injection Hc' as <- <- <-.
  destruct (score_in_range views likes comments) as (s & Hs' & Hr);
    try now apply le_zero_leb.
  congruence.
Qed.

(** The formula of the specification:
    [round(min(100, (likes + 0.5 * comments) / max(views, 1) * 1200), 2)]. *)
Definition spec_score (views likes comments : float) : result num :=
  let? half := PyNum.mul 0.5 (Float comments) in
  let? engagement := PyNum.add likes (Float half) in
  let? per_view := PyNum.truediv engagement (PyNum.max_ (Float views) (Int 1)) in
  let? scaled := PyNum.mul per_view (Int 1200) in
  Ok (PyNum.round_ (PyNum.min_ (Int 100) (Float scaled)) 2).

Lemma score_refines_spec views likes comments :
  score views likes comments = spec_score views likes comments.
Proof.
  unfold score, spec_score, PyNum.mul. cbn [PyNum.operand rbind].
  now rewrite (mul_comm comments 0.5).
Qed.

(** The record of the example: 1000 views, 50 likes, 20 comments. *)
Definition example_record : value :=
  VDict [ (lit "id", VStr (lit "v1"));
          (lit "statistics",
           VDict [ (lit "viewCount", VInt 1000);
                   (lit "likeCount", VInt 50);
                   (lit "commentCount", VInt 20) ]) ].

(** C3. The score of a normalised record is the value of the formula on
    its three counters, and the record of the example scores 72.0. *)
Theorem ctr_score_is_the_formula :
  (forall (item : value) (info : ThumbnailInfo),
     build item = Ok info ->
     exists views likes comments,
       counters_of item = Ok (views, likes, comments)
       /\ spec_score views likes comments = Ok (ctr_score info))
  /\ (exists info, build example_record = Ok info
                   /\ ctr_score info = Float 72).
Proof.
  split.
  - intros item info Hb.
    destruct (build_inv item info Hb) as (_ & v & l & c & _ & _ & Hc & Hs).
    exists v, l, c. split; [exact Hc|]. now rewrite <- score_refines_spec.
  - exists {| video_id := VStr (lit "v1");
               title := VStr default_title;
               description := VStr [];
               thumbnail_url := VStr [];
               ctr_score := Float 72 |}.
    split; [vm_compute|]; reflexivity.
Qed.


(** The tiers, in the order of preference. *)
Definition tier_order : list pystr :=
  [lit "maxres"; lit "standard"; lit "high"; lit "default"].

(** The mapping has the tier. *)
Definition present (entries : list (pystr * value)) (tier : pystr) : bool :=
  match Py.lookup tier entries with
  | Some _ => true
  | None => false
  end.

(** The first tier of the order that the mapping has. *)
Definition first_present (entries : list (pystr * value)) : option pystr :=
  List.find (present entries) tier_order.

(** The URL a tier of the mapping carries. *)
Definition url_of_tier (entries : list (pystr * value)) (tier : pystr)
    : option pystr :=
  match Py.lookup tier entries with
  | Some (VDict fields) =>
    match Py.lookup (lit "url") fields with
    | Some (VStr u) => Some u
    | _ => None
    end
  | _ => None
  end.

(** Every tier the mapping has is an object with a [url] string. *)
Definition tiers_carry_urls (entries : list (pystr * value)) : Prop :=
  forall tier, In tier tier_order -> present entries tier = true ->
               exists u, url_of_tier entries tier = Some u.

Lemma tier_cases entries tier :
  tiers_carry_urls entries -> In tier tier_order ->
  (Py.lookup tier entries = None /\ present entries tier = false)
  \/ (exists fields u,
        Py.lookup tier entries = Some (VDict fields)
        /\ Py.truthy (VDict fields) = true
        /\ Py.get (VDict fields) (lit "url") VNone = Ok (VStr u)
        /\ present entries tier = true
        /\ url_of_tier entries tier = Some u).
Proof.
  intros Hwf Hin. specialize (Hwf tier Hin).
  unfold present, url_of_tier in *.
  destruct (Py.lookup tier entries) as [v|]; [right | now left].
  destruct (Hwf eq_refl) as (u & Hu).
  destruct v as [| | | | |?|fields]; try discriminate.
  exists fields, u. split; [reflexivity|].
  unfold Py.get.
  destruct (Py.lookup (lit "url") fields) as [[| | | |u'| |]|] eqn:Hl; try discriminate.
  injection Hu as ->.
  repeat split. destruct fields; [discriminate | reflexivity].
Qed.

(** C7 (amended). When every tier of the mapping is an object with a [url]
    string, the selection returns, without error, the URL of the first tier
    present in the order maxres, standard, high, default, and the empty
    string when no tier is present; this is the [thumbnail_url] of the
    normalised record. *)
Theorem thumbnail_url_follows_tier_order :
  forall (entries : list (pystr * value)),
    tiers_carry_urls entries ->
    exists url,
      select_thumbnail_url (VDict entries) = Ok (VStr url)
      /\ (forall item info,
            thumbnails_of item = Ok (VDict entries) ->
            build item = Ok info -> thumbnail_url info = VStr url)
      /\ match first_present entries with
         | Some tier => url_of_tier entries tier = Some url
         | None => url = []
         end.
Proof.
  intros entries Hwf.
  assert (Hsel : exists url,
             select_thumbnail_url (VDict entries) = Ok (VStr url)
             /\ match first_present entries with
                | Some tier => url_of_tier entries tier = Some url
                | None => url = []
                end).
  { unfold select_thumbnail_url, best_thumbnail, first_present, tier_order.
    cbn [Py.get List.find].
    destruct (tier_cases entries (lit "maxres") Hwf)
      as [[H1 P1]|(f & u & H1 & T & G & P1 & U)]; [simpl; tauto | | ];
      rewrite H1, P1; cbn [rbind].
    2: { rewrite T. cbn [rbind]. rewrite T, G. eauto. }
    cbn [Py.truthy].
    destruct (tier_cases entries (lit "standard") Hwf)
      as [[H2 P2]|(f & u & H2 & T & G & P2 & U)]; [simpl; tauto | | ];
      rewrite H2, P2; cbn [rbind].
    2: { rewrite T. cbn [rbind]. rewrite T, G. eauto. }
    cbn [Py.truthy].
    destruct (tier_cases entries (lit "high") Hwf)
      as [[H3 P3]|(f & u & H3 & T & G & P3 & U)]; [simpl; tauto | | ];
      rewrite H3, P3; cbn [rbind].
    2: { rewrite T. cbn [rbind]. rewrite T, G. eauto. }
    cbn [Py.truthy].
    destruct (tier_cases entries (lit "default") Hwf)
      as [[H4 P4]|(f & u & H4 & T & G & P4 & U)]; [simpl; tauto | | ];
      rewrite H4, P4; cbn [rbind].
    2: { rewrite T, G. eauto. }
    cbn [Py.truthy]. eauto. }
  destruct Hsel as (url & Hsel & Hfirst).
  exists url. split; [exact Hsel|]. split; [|exact Hfirst].
  intros item info Ht Hb.
  destruct (build_inv item info Hb) as (th & _ & _ & _ & Ht' & Hs & _).
  congruence.
Qed.

End Normalize.

(** ** Aggregation and suggestions *)

Section Aggregator.

Import YouTubeClient.

Variable world : list request -> request -> outcome.

(** The request for the items of a playlist. *)
Definition playlist_request (self : client) (playlist_id : value)
    (max_results : Z) : request :=
  {| url := base_url self ++ lit "/playlistItems";
     params := [ (lit "part", VStr (lit "snippet"));
                 (lit "playlistId", playlist_id);
                 (lit "maxResults", VInt max_results);
                 (lit "key", opt_value (api_key self)) ] |}.

(** The response lists no item: iterating over [data.get("items", [])]
    yields nothing. *)
Definition lists_no_item (data : value) : Prop :=
  (let? items := Py.get data (lit "items") (VList []) in Py.iter items) = Ok [].

(** C9. When the playlist request is answered by a body that lists no item,
    the list of latest videos is the empty list, returned as a result and not
    as an error, and the playlist request is the only request issued: the
    statistics request is not sent. *)
Theorem empty_playlist_is_empty_success :
  forall (self : client) (playlist_id : value) (max_results : Z)
         (history : list request) (data : value),
    world history (playlist_request self playlist_id max_results)
      = Response false (Some data) ->
    lists_no_item data ->
    _get_latest_videos world self playlist_id max_results history
      = (Ok (VList []), history ++ [playlist_request self playlist_id max_results])
    /\ url (playlist_request self playlist_id max_results)
       <> base_url self ++ lit "/videos".
Proof.
  intros self playlist_id max_results history data Hw Hempty. split.
  - unfold _get_latest_videos, get_json, Eff.bind, Eff.call.
    fold (playlist_request self playlist_id max_results). rewrite Hw.
    unfold Eff.ret, Eff.lift. unfold lists_no_item in Hempty.
    destruct (Py.get data (lit "items") (VList [])) as [items|]; [|discriminate].
    cbn [rbind] in *. rewrite Hempty. reflexivity.
  - cbn [url playlist_request]. intros H. apply app_inv_head in H. discriminate H.
Qed.

End Aggregator.

Section Suggestion.

Import GeminiClient.

Variable textwrap_fill : pystr -> pystr.
Variable render_png : pystr -> result (list byte).

Let suggest := propose_new_thumbnail textwrap_fill render_png.

(** The text-generation call of a suggestion. *)
Definition text_call (title description : pystr)
    (original_thumbnail : option pystr) : call :=
  GenerateContent (lit "gemini-1.5-flash-latest")
    [base_prompt; content_prompt_of title description original_thumbnail].

(** The placeholder is drawn before the key is looked at and outside the
    [try] block: when the drawing raises, that exception is the outcome of
    the suggestion, whatever the key and the SDK, and no call is issued. *)
Lemma unrendered_placeholder_ends_suggestion self title description
    original_thumbnail e history :
  _placeholder_image textwrap_fill render_png title = Raise e ->
  suggest self title description original_thumbnail history = (Raise e, history).
Proof.
  intros H. unfold suggest, propose_new_thumbnail, Eff.bind, Eff.lift.
  now rewrite H.
Qed.

(** Without a key and with a placeholder that was drawn, the suggestion
    carries the fixed instruction and that placeholder, and no call is
    issued. *)
Lemma suggest_without_key_rendered self title description original_thumbnail
    image history :
  opt_truthy (api_key self) = false ->
  _placeholder_image textwrap_fill render_png title = Ok image ->
  suggest self title description original_thumbnail history
  = (Ok {| prompt := content_prompt_of title description original_thumbnail;
           idea := msg_use_key;
           image_data_url := Some image |}, history).
Proof.
  intros Hkey H. unfold suggest, propose_new_thumbnail, Eff.bind, Eff.lift.
  now rewrite H, Hkey.
Qed.

(** The placeholder that was drawn is the data URL of the bytes the imaging
    library saved for the wrapped text, or for the default text when the
    wrapped text is empty. *)
Lemma placeholder_is_rendered_text text image :
  _placeholder_image textwrap_fill render_png text = Ok image ->
  exists png,
    render_png (if PyStr.truthy (textwrap_fill text) then textwrap_fill text
                else default_placeholder_text) = Ok png
    /\ image = lit "data:image/png;base64," ++ b64encode (List.map Byte.to_N png).
Proof.
  unfold _placeholder_image. cbn zeta.
  destruct (render_png _) as [png|e]; [|discriminate].
  intros [= <-]. now exists png.
Qed.

End Suggestion.

(* ------------------------------------------------------------------ *)
(** ** Concrete instances *)

(** A Unicode database with no alphanumeric character outside ASCII, and a
    network that is down: enough for references written in ASCII that
    resolve without a request. *)
Definition ascii_only : codepoint -> bool := fun _ => false.

Definition network_down
    : list YouTubeClient.request -> YouTubeClient.request -> YouTubeClient.outcome :=
  fun _ _ => YouTubeClient.TransportError.

(** A network that answers every request with an empty list of items. *)
Definition network_without_items
    : list YouTubeClient.request -> YouTubeClient.request -> YouTubeClient.outcome :=
  fun _ _ =>
    YouTubeClient.Response false (Some (VDict [(lit "items", VList [])])).

Fixpoint digits_value (acc : Z) (s : pystr) : option Z :=
  match s with
  | [] => Some acc
  | c :: s' =>
    if ((48 <=? c) && (c <=? 57))%N
    then digits_value (10 * acc + Z.of_N (c - 48)) s'
    else None
  end.

(** [float(s)] on the non-empty strings of ASCII digits, the form in which
    the platform sends its counters: the nearest binary64 value, infinity
    when the number is too large for a finite one.  The other spellings
    [float] reads (signs, fractions, exponents, surrounding white space) do
    not occur in the instances below and are refused here. *)
Definition float_of_digits (s : pystr) : result float :=
  match s with
  | [] => Raise (ValueError [])
  | _ :: _ =>
    match digits_value 0 s with
    | Some z =>
      match PyNum.of_int z with
      | Ok f => Ok f
      | Raise _ => Ok infinity
      end
    | None => Raise (ValueError [])
    end
  end.

(** A record as the platform sends it, with no view yet. *)
Definition unviewed_record : value :=
  VDict [ (lit "id", VStr (lit "v2"));
          (lit "snippet",
           VDict [ (lit "title", VStr (lit "First upload"));
                   (lit "thumbnails",
                    VDict [ (lit "high", VDict [(lit "url", VStr (lit "https://i.ytimg.com/vi/v2/hq.jpg"))]);
                            (lit "default", VDict [(lit "url", VStr (lit "https://i.ytimg.com/vi/v2/d.jpg"))]) ]) ]);
          (lit "statistics",
           VDict [ (lit "viewCount", VStr (lit "0"));
                   (lit "likeCount", VStr (lit "3"));
                   (lit "commentCount", VStr (lit "1")) ]) ].

(** A record whose only tier carries an empty URL. *)
Definition empty_url_record : value :=
  VDict [ (lit "id", VStr (lit "v3"));
          (lit "snippet",
           VDict [ (lit "thumbnails",
                    VDict [ (lit "default", VDict [(lit "url", VStr [])]) ]) ]) ].

(** An SDK whose text generation answers and whose image generation fails. *)
Definition sdk_without_images : GeminiClient.sdk :=
  {| GeminiClient.generate_content :=
       fun _ _ => Ok {| GeminiClient.text := Ok (lit "  Three concepts.  ") |};
     GeminiClient.generate_images :=
       fun _ _ => Raise (ServiceError (lit "image generation unavailable")) |}.

(** An SDK whose text generation fails. *)
Definition sdk_text_times_out : GeminiClient.sdk :=
  {| GeminiClient.generate_content :=
       fun _ _ => Raise (ServiceError (lit "deadline exceeded"));
     GeminiClient.generate_images :=
       fun _ _ => Raise (ServiceError (lit "image generation unavailable")) |}.

(** [textwrap.fill(text, width=30)] on the texts of the instances below: a
    text of at most 30 characters with single spaces between its words is
    returned as it is. *)
Definition no_wrap : pystr -> pystr := fun text => text.

(** The eight bytes every PNG file starts with. *)
Definition png_signature : list byte :=
  [x89; x50; x4e; x47; x0d; x0a; x1a; x0a].

(** An imaging library that draws every text, reduced to the first bytes of
    what it saves. *)
Definition blank_png : pystr -> result (list byte) := fun _ => Ok png_signature.

(** The placeholder with that library. *)
Definition blank_placeholder : pystr := GeminiClient.data_url png_signature.










(** ** The claims at concrete inputs *)

Lemma no_channel_id_by_search s :
  Re.search_channel_id ascii_only s = None -> ~ contains_channel_id ascii_only s.
Proof. apply search_channel_id_none_inv. Qed.

(** C1: with a key, a placeholder that was drawn and an SDK whose text
    generation fails, the failure reaches the caller after that one call:
    no structured result is returned. *)
Lemma suggest_propagates_text_failure :
  Eff.run
    (GeminiClient.propose_new_thumbnail no_wrap blank_png
       {| GeminiClient.api_key := Some (lit "key");
          GeminiClient.genai := Some sdk_text_times_out |}
       (lit "My video") (lit "About it") None)
  = (Raise (ServiceError (lit "deadline exceeded")),
     [text_call (lit "My video") (lit "About it") None]).
Proof. vm_compute. reflexivity. Qed.

Lemma ctr_score_between_0_and_100_witness :
  counters_not_negative float_of_digits unviewed_record
  /\ exists info,
       YouTubeClient._build_thumbnail_info float_of_digits unviewed_record = Ok info
       /\ in_percent_range (YouTubeClient.ctr_score info) = true.
Proof.
  assert (H : counters_not_negative float_of_digits unviewed_record).
  { exists 0%float, 3%float, 1%float. repeat split; vm_compute; reflexivity. }
  split; [exact H|].
  eexists {| YouTubeClient.video_id := VStr (lit "v2");
             YouTubeClient.title := VStr (lit "First upload");
             YouTubeClient.description := VStr [];
             YouTubeClient.thumbnail_url := VStr (lit "https://i.ytimg.com/vi/v2/hq.jpg");
             YouTubeClient.ctr_score := Int 100 |}.
  assert (Hb : YouTubeClient._build_thumbnail_info float_of_digits unviewed_record
               = Ok {| YouTubeClient.video_id := VStr (lit "v2");
                       YouTubeClient.title := VStr (lit "First upload");
                       YouTubeClient.description := VStr [];
                       YouTubeClient.thumbnail_url := VStr (lit "https://i.ytimg.com/vi/v2/hq.jpg");
                       YouTubeClient.ctr_score := Int 100 |})
    by (vm_compute; reflexivity).
  split; [exact Hb|].
  exact (ctr_score_between_0_and_100 float_of_digits unviewed_record _ H Hb).
Defined.

Lemma ctr_score_is_the_formula_witness :
  exists views likes comments,
    counters_of float_of_digits unviewed_record = Ok (views, likes, comments)
    /\ spec_score views likes comments = Ok (Int 100).
Proof.
  assert (Hb : YouTubeClient._build_thumbnail_info float_of_digits unviewed_record
               = Ok {| YouTubeClient.video_id := VStr (lit "v2");
                       YouTubeClient.title := VStr (lit "First upload");
                       YouTubeClient.description := VStr [];
                       YouTubeClient.thumbnail_url := VStr (lit "https://i.ytimg.com/vi/v2/hq.jpg");
                       YouTubeClient.ctr_score := Int 100 |})
    by (vm_compute; reflexivity).
  exact (proj1 (ctr_score_is_the_formula float_of_digits) unviewed_record _ Hb).
Defined.

(** C4: a reference with an [@handle] token and no literal channel ID that
    starts with [UC] and has 24 characters is returned as the channel ID. *)
Lemma handle_reference_taken_as_channel_id :
  let s := lit "UC@aaaaaaaaaaaaaaaaaaaaa" in
  contains_handle s
  /\ ~ contains_channel_id ascii_only s
  /\ Eff.run (YouTubeClient._resolve_channel_identifier ascii_only network_down
                (YouTubeClient.init None) s)
     = (Ok (VStr s), []).
Proof.
  intros s. split; [|split].
  - exists (lit "UC"), 97%N, (lit "aaaaaaaaaaaaaaaaaaaa").
    split; vm_compute; reflexivity.
  - apply no_channel_id_by_search. vm_compute. reflexivity.
  - vm_compute. reflexivity.
Qed.

Lemma handle_without_key_needs_configuration_witness :
  let s := lit "https://www.youtube.com/@veritasium" in
  (contains_handle s
   \/ (PyStr.startswith s (lit "@") = true /\ exists c, In c s /\ c <> 64%N))
  /\ ~ contains_channel_id ascii_only s
  /\ ~ (PyStr.startswith s (lit "UC") = true /\ (24 <= List.length s)%nat)
  /\ Eff.run (YouTubeClient._resolve_channel_identifier ascii_only network_down
                (YouTubeClient.init None) s)
     = (Raise (ValueError YouTubeClient.msg_handle_needs_key), []).
Proof.
  intros s.
  assert (H1 : contains_handle s
               \/ (PyStr.startswith s (lit "@") = true
                   /\ exists c, In c s /\ c <> 64%N)).
  { left. exists (lit "https://www.youtube.com/"), 118%N, (lit "eritasium").
    split; vm_compute; reflexivity. }
  assert (H2 : ~ contains_channel_id ascii_only s)
    by (apply no_channel_id_by_search; vm_compute; reflexivity).
  assert (H3 : ~ (PyStr.startswith s (lit "UC") = true /\ (24 <= List.length s)%nat))
    by (intros [H _]; vm_compute in H; discriminate H).
  repeat (split; [assumption|]).
  exact (handle_without_key_needs_configuration ascii_only network_down
           (YouTubeClient.init None) s H1 H2 H3 eq_refl).
Defined.

(** C5: the reference of the example resolves to no identifier. *)
Lemma example_reference_is_not_resolved :
  Eff.run (YouTubeClient._resolve_channel_identifier ascii_only network_down
             (YouTubeClient.init None)
             (lit "https://www.youtube.com/channel/UCabcdefghijklmnopqrstu"))
  = (Ok VNone, [])
  /\ List.length (lit "UCabcdefghijklmnopqrstu") = 23%nat.
Proof. split; vm_compute; reflexivity. Qed.

Lemma resolve_returns_embedded_channel_id_witness :
  let g := lit "UCabcdefghijklmnopqrstuv" in
  is_channel_id ascii_only g
  /\ exists pre' g' post',
       lit "https://www.youtube.com/channel/" ++ g ++ lit "/videos?x=@me"
         = pre' ++ g' ++ post'
       /\ is_channel_id ascii_only g'
       /\ (List.length pre' <= List.length (lit "https://www.youtube.com/channel/"))%nat
       /\ (List.length pre' = List.length (lit "https://www.youtube.com/channel/")
           -> g' = g)
       /\ Eff.run (YouTubeClient._resolve_channel_identifier ascii_only network_down
                     (YouTubeClient.init None)
                     (lit "https://www.youtube.com/channel/" ++ g
                        ++ lit "/videos?x=@me"))
          = (Ok (VStr g'), []).
Proof.
  intros g.
  assert (H : is_channel_id ascii_only g).
  { exists (lit "abcdefghijklmnopqrstuv").
    split; [vm_compute; reflexivity|]. split; [vm_compute; reflexivity|].
    vm_compute. repeat constructor. }
  split; [exact H|].
  exact (resolve_returns_embedded_channel_id ascii_only network_down
           (YouTubeClient.init None) (lit "https://www.youtube.com/channel/")
           g (lit "/videos?x=@me") H).
Defined.

(** C7: a tier exists and the selected URL is the empty string. *)
Lemma empty_url_although_a_tier_exists :
  thumbnails_of empty_url_record
    = Ok (VDict [(lit "default", VDict [(lit "url", VStr [])])])
  /\ present [(lit "default", VDict [(lit "url", VStr [])])] (lit "default") = true
  /\ exists info,
       YouTubeClient._build_thumbnail_info float_of_digits empty_url_record = Ok info
       /\ YouTubeClient.thumbnail_url info = VStr [].
Proof.
  split; [vm_compute; reflexivity|]. split; [vm_compute; reflexivity|].
  exists {| YouTubeClient.video_id := VStr (lit "v3");
            YouTubeClient.title := VStr YouTubeClient.default_title;
            YouTubeClient.description := VStr [];
            YouTubeClient.thumbnail_url := VStr [];
            YouTubeClient.ctr_score := Float 0 |}.
  split; [vm_compute|]; reflexivity.
Qed.

Lemma thumbnail_url_follows_tier_order_witness :
  let entries :=
    [ (lit "high", VDict [(lit "url", VStr (lit "https://i.ytimg.com/vi/v2/hq.jpg"))]);
      (lit "default", VDict [(lit "url", VStr (lit "https://i.ytimg.com/vi/v2/d.jpg"))]) ] in
  tiers_carry_urls entries
  /\ exists url,
       YouTubeClient.select_thumbnail_url (VDict entries) = Ok (VStr url)
       /\ (forall item info,
             thumbnails_of item = Ok (VDict entries) ->
             YouTubeClient._build_thumbnail_info float_of_digits item = Ok info ->
             YouTubeClient.thumbnail_url info = VStr url)
       /\ match first_present entries with
          | Some tier => url_of_tier entries tier = Some url
          | None => url = []
          end.
Proof.
  intros entries.
  assert (H : tiers_carry_urls entries).
  { intros tier Hin Hp.
    destruct Hin as [<-|[<-|[<-|[<-|[]]]]]; vm_compute in Hp;
      first [discriminate Hp | eexists; vm_compute; reflexivity]. }
  split; [exact H|].
  exact (thumbnail_url_follows_tier_order float_of_digits entries H).
Defined.


Lemma empty_playlist_is_empty_success_witness :
  let self := YouTubeClient.init (Some (lit "key")) in
  let request := playlist_request self (VStr (lit "UUabc")) 12 in
  network_without_items [] request
    = YouTubeClient.Response false (Some (VDict [(lit "items", VList [])]))
  /\ lists_no_item (VDict [(lit "items", VList [])])
  /\ YouTubeClient._get_latest_videos network_without_items self
       (VStr (lit "UUabc")) 12 []
     = (Ok (VList []), [] ++ [request])
  /\ YouTubeClient.url request
     <> YouTubeClient.base_url self ++ lit "/videos".
Proof.
  intros self request.
  assert (H1 : network_without_items [] request
               = YouTubeClient.Response false (Some (VDict [(lit "items", VList [])])))
    by reflexivity.
  assert (H2 : lists_no_item (VDict [(lit "items", VList [])]))
    by (vm_compute; reflexivity).
  split; [exact H1|]. split; [exact H2|].
  exact (empty_playlist_is_empty_success network_without_items self
           (VStr (lit "UUabc")) 12 [] _ H1 H2).
Defined.

(** C10: a string of 26 pattern characters that starts with [UC] is not
    returned whole; its first 24 characters are. *)
Lemma long_UC_string_is_cut :
  let s := lit "UCabcdefghijklmnopqrstuvwx" in
  PyStr.startswith s (lit "UC") = true
  /\ (24 <= List.length s)%nat
  /\ Eff.run (YouTubeClient._resolve_channel_identifier ascii_only network_down
                (YouTubeClient.init None) s)
     = (Ok (VStr (lit "UCabcdefghijklmnopqrstuv")), [])
  /\ lit "UCabcdefghijklmnopqrstuv" <> s.
Proof.
  intros s. split; [vm_compute; reflexivity|].
  split; [vm_compute; repeat constructor|].
  split; [vm_compute; reflexivity|].
  vm_compute. discriminate.
Qed.

Lemma resolve_long_UC_string_witness :
  let s := lit "UC channel of the month!" in
  PyStr.startswith s (lit "UC") = true
  /\ (24 <= List.length s)%nat
  /\ ~ contains_channel_id ascii_only s
  /\ Eff.run (YouTubeClient._resolve_channel_identifier ascii_only network_down
                (YouTubeClient.init None) s)
     = (Ok (VStr s), []).
Proof.
  intros s.
  assert (H1 : PyStr.startswith s (lit "UC") = true) by (vm_compute; reflexivity).
  assert (H2 : (24 <= List.length s)%nat) by (vm_compute; repeat constructor).
  assert (H3 : ~ contains_channel_id ascii_only s)
    by (apply no_channel_id_by_search; vm_compute; reflexivity).
  repeat (split; [assumption|]).
  exact (proj1 (resolve_long_UC_string ascii_only network_down
                  (YouTubeClient.init None) s H1 H2) H3).
Defined.

(* ================================================================== *)
(** * Further properties of the client code *)

(** ** Handles *)

Section Handles.

Lemma take_while_split p s :
  exists rest,
    s = Re.take_while p s ++ rest
    /\ Forall (fun c => p c = true) (Re.take_while p s)
    /\ (forall c rest', rest = c :: rest' -> p c = false).
Proof.
  induction s as [|c s (rest & Hs & Hall & Hnext)]; simpl.
  - exists []. repeat split; [constructor | discriminate].
  - destruct (p c) eqn:Hc.
    + exists rest. simpl. split; [now rewrite <- Hs|].
      split; [now constructor | exact Hnext].
    + exists (c :: s). repeat split; [constructor|].
      intros c' rest' [= <- _]. exact Hc.
Qed.

(** What the search for [@([A-Za-z0-9._-]+)] returns: the run of handle
    characters that follows the first [@] followed by one. *)
Lemma search_handle_sound s h :
  Re.search_handle s = Some h ->
  exists pre post,
    s = pre ++ 64%N :: h ++ post
    /\ PyStr.truthy h = true
    /\ Forall (fun c => Re.handle_char c = true) h
    /\ (forall c post', post = c :: post' -> Re.handle_char c = false)
    /\ (forall pre2 c rest2,
          s = pre2 ++ 64%N :: c :: rest2 -> Re.handle_char c = true ->
          (List.length pre <= List.length pre2)%nat).
Proof.
  induction s as [|d s IH]; [discriminate|]. simpl.
  destruct ((d =? 64)%N && match s with
                           | [] => false
                           | d0 :: _ => Re.handle_char d0
                           end) eqn:Hd.
  - intros [= <-]. apply andb_true_iff in Hd as [Hd Hc].
    apply N.eqb_eq in Hd. subst d.
    destruct (take_while_split Re.handle_char s) as (rest & Hs & Hall & Hnext).
    exists [], rest. simpl. split; [now rewrite <- Hs|].
    split; [destruct s as [|d0 l]; [discriminate | simpl; now rewrite Hc]|].
    split; [exact Hall|]. split; [exact Hnext|]. intros; lia.
  - intros Hh. destruct (IH Hh) as (pre & post & -> & Ht & Hall & Hnext & Hleft).
    exists (d :: pre), post. simpl. repeat (split; [easy|]).
    intros pre2 c rest2 Heq Hc. destruct pre2 as [|d2 pre2].
    + simpl in Heq. injection Heq as -> Heq. rewrite Heq in Hd.
      simpl in Hd. rewrite Hc in Hd. discriminate.
    + simpl in Heq. injection Heq as _ Heq. simpl.
      specialize (Hleft pre2 c rest2 Heq Hc). lia.
Qed.

End Handles.

(** ** Requests of the client *)

Section ClientRequests.

Import YouTubeClient.

(** The search request for a handle. *)
Definition search_request (self : client) (handle : pystr) : request :=
  {| url := base_url self ++ lit "/search";
     params := [ (lit "part", VStr (lit "snippet"));
                 (lit "type", VStr (lit "channel"));
                 (lit "q", VStr (lit "@" ++ handle));
                 (lit "maxResults", VInt 1);
                 (lit "key", opt_value (api_key self)) ] |}.

(** The request for the content details of a channel. *)
Definition channels_request (self : client) (channel_id : value) : request :=
  {| url := base_url self ++ lit "/channels";
     params := [ (lit "part", VStr (lit "contentDetails"));
                 (lit "id", channel_id);
                 (lit "key", opt_value (api_key self)) ] |}.

(** The request for the snippet and statistics of the videos [ids]. *)
Definition videos_request (self : client) (ids : pystr) : request :=
  {| url := base_url self ++ lit "/videos";
     params := [ (lit "part", VStr (lit "snippet,statistics"));
                 (lit "id", VStr ids);
                 (lit "key", opt_value (api_key self)) ] |}.

(** What [raise_for_status] and [json] make of an answer. *)
Definition decoded (o : outcome) : result value :=
  match o with
  | TransportError => Raise HTTPError
  | Response true _ => Raise HTTPError
  | Response false None => Raise JSONDecodeError
  | Response false (Some data) => Ok data
  end.

(** The body is a [dict] whose [items] start with [item]. *)
Definition first_item_is (data item : value) : Prop :=
  exists others, Py.get data (lit "items") (VList []) = Ok (VList (item :: others)).

(** The body is a [dict] with no [items], or with [items] that are empty. *)
Definition has_no_items (data : value) : Prop :=
  exists items, Py.get data (lit "items") (VList []) = Ok items
                /\ Py.truthy items = false.

Variable unicode_alnum : codepoint -> bool.
Variable float_of_str : pystr -> result float.
Variable world : list request -> request -> outcome.

Lemma get_json_step u ps history :
  get_json world u ps history
  = (decoded (world history {| url := u; params := ps |}),
     history ++ [{| url := u; params := ps |}]).
Proof.
  unfold get_json, Eff.bind, Eff.call, Eff.raise, Eff.ret, decoded.
  destruct (world history _) as [|[|] [data|]]; reflexivity.
Qed.

Lemma extract_channel_id_none s :
  ~ contains_channel_id unicode_alnum s ->
  ~ (PyStr.startswith s (lit "UC") = true /\ (24 <= List.length s)%nat) ->
  _extract_channel_id unicode_alnum s = None.
Proof.
  intros Hno Hnot. unfold _extract_channel_id.
  rewrite (search_channel_id_none unicode_alnum s Hno).
  destruct (PyStr.startswith s (lit "UC")) eqn:Hs; [|reflexivity].
  destruct (24 <=? Z.of_nat (List.length s)) eqn:Hl; [|reflexivity].
  exfalso. apply Hnot. split; [reflexivity|]. apply Z.leb_le in Hl. lia.
Qed.

Lemma extract_handle_of_search s h :
  Re.search_handle s = Some h ->
  _extract_handle s = Some h /\ opt_truthy (Some h) = true.
Proof.
  intros Hs. unfold _extract_handle. rewrite Hs. split; [reflexivity|].
  exact (search_handle_truthy s h Hs).
Qed.

Lemma no_at_no_handle s :
  ~ In 64%N s -> _extract_handle s = None.
Proof.
  intros Hno. unfold _extract_handle.
  assert (Hs : Re.search_handle s = None).
  { induction s as [|d s IH]; [reflexivity|]. simpl.
    destruct (N.eqb_spec d 64) as [->|_]; [exfalso; apply Hno; now left|].
    simpl. apply IH. intros H. apply Hno. now right. }
  rewrite Hs. destruct s as [|d s]; [reflexivity|].
  change (lit "@") with [64%N]. cbn [PyStr.startswith].
  destruct (N.eqb_spec d 64) as [->|_]; [exfalso; apply Hno; now left | reflexivity].
Qed.

Lemma fetch_by_handle_step self handle history :
  _fetch_channel_id_by_handle world self handle history
  = (let? data := decoded (world history (search_request self handle)) in
     let? items := Py.get data (lit "items") (VList []) in
     if negb (Py.truthy items) then Ok VNone
     else
       let? item := Py.first items in
       let? id := Py.get item (lit "id") (VDict []) in
       Py.get id (lit "channelId") VNone,
     history ++ [search_request self handle]).
Proof.
  unfold _fetch_channel_id_by_handle, Eff.bind. rewrite get_json_step.
  fold (search_request self handle).
  destruct (decoded (world history (search_request self handle))) as [data|e];
    [|reflexivity].
  unfold Eff.lift. cbn [rbind].
  destruct (Py.get data (lit "items") (VList [])) as [items|e]; [|reflexivity].
  cbn [rbind]. destruct (negb (Py.truthy items)); reflexivity.
Qed.

Lemma resolve_by_handle self s h history :
  _extract_channel_id unicode_alnum s = None ->
  _extract_handle s = Some h ->
  PyStr.truthy h = true ->
  opt_truthy (api_key self) = true ->
  _resolve_channel_identifier unicode_alnum world self s history
  = _fetch_channel_id_by_handle world self h history.
Proof.
  intros Hid Hh Ht Hkey.
  unfold _resolve_channel_identifier. rewrite Hid, Hh.
  cbn [opt_truthy]. rewrite Ht, Hkey. reflexivity.
Qed.

Lemma search_channel_id_sound s g :
  Re.search_channel_id unicode_alnum s = Some g ->
  is_channel_id unicode_alnum g /\ exists pre post, s = pre ++ g ++ post.
Proof.
  induction s as [|c s IH]; rewrite search_channel_id_unfold.
  - destruct (Re.channel_id_here unicode_alnum []) eqn:Hh; [|discriminate].
    discriminate Hh.
  - destruct (Re.channel_id_here unicode_alnum (c :: s)) eqn:Hh.
    + intros [= <-]. destruct (channel_id_here_split _ _ Hh) as (post & Heq & Hid).
      split; [exact Hid|]. exists [], post. exact Heq.
    + intros Hs. destruct (IH Hs) as (Hid & pre & post & ->).
      split; [exact Hid|]. exists (c :: pre), post. reflexivity.
Qed.

Lemma resolve_by_id self s g history :
  Re.search_channel_id unicode_alnum s = Some g ->
  _resolve_channel_identifier unicode_alnum world self s history
  = (Ok (VStr g), history).
Proof.
  intros Hs. unfold _resolve_channel_identifier, _extract_channel_id. rewrite Hs.
  destruct (search_channel_id_sound s g Hs) as ((rest & -> & _) & _).
  reflexivity.
Qed.

Lemma uploads_step self channel_id history :
  opt_truthy (api_key self) = true ->
  _get_uploads_playlist world self channel_id history
  = (let? data := decoded (world history (channels_request self channel_id)) in
     let? items := Py.get data (lit "items") (VList []) in
     if negb (Py.truthy items) then Raise (ValueError msg_channel_not_found)
     else
       let? item := Py.first items in
       let? details := Py.getitem item (lit "contentDetails") in
       let? related := Py.getitem details (lit "relatedPlaylists") in
       Py.getitem related (lit "uploads"),
     history ++ [channels_request self channel_id]).
Proof.
  intros Hkey. unfold _get_uploads_playlist. rewrite Hkey. cbn [negb].
  unfold Eff.bind. rewrite get_json_step. fold (channels_request self channel_id).
  destruct (decoded (world history (channels_request self channel_id))) as [data|e];
    [|reflexivity].
  unfold Eff.lift. cbn [rbind].
  destruct (Py.get data (lit "items") (VList [])) as [items|e]; [|reflexivity].
  cbn [rbind]. destruct (negb (Py.truthy items)); reflexivity.
Qed.

Lemma join_ids_of_strings ids :
  join_ids (List.map VStr ids) = Ok (PyStr.join (lit ",") ids).
Proof.
  unfold join_ids.
  assert (H : comprehension as_str (List.map VStr ids) = Ok ids).
  { induction ids as [|i ids IH]; [reflexivity|].
    cbn [List.map comprehension as_str rbind]. now rewrite IH. }
  now rewrite H.
Qed.

(** The identifiers the playlist body lists, in its order. *)
Definition listed_video_ids (playlist_data : value) : result (list value) :=
  let? items := Py.get playlist_data (lit "items") (VList []) in
  let? elems := Py.iter items in
  comprehension video_id_of elems.

Lemma latest_videos_step self playlist_id max_results history playlist_data id ids :
  world history (playlist_request self playlist_id max_results)
    = Response false (Some playlist_data) ->
  listed_video_ids playlist_data = Ok (List.map VStr (id :: ids)) ->
  _get_latest_videos world self playlist_id max_results history
  = (let? stats_data :=
       decoded (world (history ++ [playlist_request self playlist_id max_results])
                  (videos_request self (PyStr.join (lit ",") (id :: ids)))) in
     Py.get stats_data (lit "items") (VList []),
     history ++ [playlist_request self playlist_id max_results;
                 videos_request self (PyStr.join (lit ",") (id :: ids))]).
Proof.
  intros Hw Hids. unfold _get_latest_videos.
  unfold Eff.bind at 1. rewrite get_json_step.
  fold (playlist_request self playlist_id max_results). rewrite Hw.
  cbn [decoded]. unfold Eff.bind at 1. unfold Eff.lift at 1.
  unfold listed_video_ids in Hids. rewrite Hids.
  cbn [List.map]. unfold Eff.bind at 1. unfold Eff.lift at 1.
  change (VStr id :: List.map VStr ids) with (List.map VStr (id :: ids)).
  rewrite join_ids_of_strings.
  unfold Eff.bind. rewrite get_json_step.
  fold (videos_request self (PyStr.join (lit ",") (id :: ids))).
  rewrite <- app_assoc. cbn [app].
  destruct (decoded _) as [stats_data|e]; reflexivity.
Qed.

Let resolve := _resolve_channel_identifier unicode_alnum world.
Let fetch := fetch_thumbnails unicode_alnum float_of_str world.

(** X1. The handle taken from a reference that contains an [@handle] token
    is the run of handle characters that follows the first [@] followed by
    one: it is not empty, holds handle characters only, and stops at the
    first character that is not one. *)
Theorem extracted_handle_is_first_run :
  forall (s : pystr),
    contains_handle s ->
    exists pre h post,
      _extract_handle s = Some h
      /\ s = pre ++ 64%N :: h ++ post
      /\ PyStr.truthy h = true
      /\ Forall (fun c => Re.handle_char c = true) h
      /\ (forall c post', post = c :: post' -> Re.handle_char c = false)
      /\ (forall pre2 c rest2,
            s = pre2 ++ 64%N :: c :: rest2 -> Re.handle_char c = true ->
            (List.length pre <= List.length pre2)%nat).
Proof.
  intros s Hc. destruct (search_handle_found s Hc) as (h & Hs & _).
  destruct (search_handle_sound s h Hs) as (pre & post & H).
  exists pre, h, post. split; [|exact H].
  exact (proj1 (extract_handle_of_search s h Hs)).
Qed.

(** X2. Resolving a reference issues at most one request, and none at all
    when no key is configured. *)
Theorem resolve_issues_at_most_one_request :
  forall (self : client) (s : pystr),
    (List.length (snd (Eff.run (resolve self s))) <= 1)%nat
    /\ (opt_truthy (api_key self) = false -> snd (Eff.run (resolve self s)) = []).
Proof.
  intros self s. unfold resolve, Eff.run, _resolve_channel_identifier.
  destruct (opt_truthy (_extract_channel_id unicode_alnum s)); [simpl; auto|].
  destruct (opt_truthy (_extract_handle s)) eqn:Hh; [|simpl; auto].
  destruct (opt_truthy (api_key self)); [|simpl; auto]. cbn [negb].
  destruct (_extract_handle s) as [h|]; [|discriminate Hh].
  rewrite fetch_by_handle_step. cbn [snd app List.length]. split; [lia | discriminate].
Qed.

(** X3. A reference with no [@], no literal channel ID and not of the
    bare-ID shape resolves to nothing, and the aggregation fails with the
    error that asks for a channel link, before any request. *)
Theorem reference_without_id_or_handle_is_unresolved :
  forall (self : client) (s : pystr),
    ~ In 64%N s ->
    ~ contains_channel_id unicode_alnum s ->
    ~ (PyStr.startswith s (lit "UC") = true /\ (24 <= List.length s)%nat) ->
    Eff.run (resolve self s) = (Ok VNone, [])
    /\ Eff.run (fetch self s) = (Raise (ValueError msg_unresolved), []).
Proof.
  intros self s Hat Hno Hnot.
  assert (Hr : forall history,
             _resolve_channel_identifier unicode_alnum world self s history
             = (Ok VNone, history)).
  { intros history. unfold _resolve_channel_identifier.
    now rewrite (extract_channel_id_none s Hno Hnot), (no_at_no_handle s Hat). }
  split; [apply Hr|].
  unfold fetch, fetch_thumbnails, Eff.run, Eff.bind. now rewrite Hr.
Qed.

(** X4. With a key, a reference from which a handle is taken, by the
    [@handle] token or by the leading [@] alone, is looked up by exactly one
    search request, for [@handle] among channels with at most one result,
    and the channel ID of the first result is returned. *)
Theorem handle_lookup_returns_first_channel :
  forall (self : client) (s h : pystr) (data item id channel : value),
    ~ contains_channel_id unicode_alnum s ->
    ~ (PyStr.startswith s (lit "UC") = true /\ (24 <= List.length s)%nat) ->
    _extract_handle s = Some h ->
    PyStr.truthy h = true ->
    opt_truthy (api_key self) = true ->
    world [] (search_request self h) = Response false (Some data) ->
    first_item_is data item ->
    Py.get item (lit "id") (VDict []) = Ok id ->
    Py.get id (lit "channelId") VNone = Ok channel ->
    Eff.run (resolve self s) = (Ok channel, [search_request self h]).
Proof.
  intros self s h data item id channel Hno Hnot Hh Ht Hkey Hw (others & Hitems)
         Hid Hch.
  unfold resolve, Eff.run.
  rewrite (resolve_by_handle self s h []
             (extract_channel_id_none s Hno Hnot) Hh Ht Hkey).
  rewrite fetch_by_handle_step, Hw. cbn [decoded rbind]. rewrite Hitems.
  cbn [rbind Py.truthy negb Py.first]. rewrite Hid. cbn [rbind]. now rewrite Hch.
Qed.

(** X5. When the search for a handle, taken by the [@handle] token or by
    the leading [@] alone, finds nothing, the resolver returns nothing, and
    the aggregation fails with the same error as for a reference it cannot
    read, after that single request. *)
Theorem handle_lookup_without_result_is_unresolved :
  forall (self : client) (s h : pystr) (data : value),
    ~ contains_channel_id unicode_alnum s ->
    ~ (PyStr.startswith s (lit "UC") = true /\ (24 <= List.length s)%nat) ->
    _extract_handle s = Some h ->
    PyStr.truthy h = true ->
    opt_truthy (api_key self) = true ->
    world [] (search_request self h) = Response false (Some data) ->
    has_no_items data ->
    Eff.run (resolve self s) = (Ok VNone, [search_request self h])
    /\ Eff.run (fetch self s)
       = (Raise (ValueError msg_unresolved), [search_request self h]).
Proof.
  intros self s h data Hno Hnot Hh Ht Hkey Hw (items & Hitems & Hfalsy).
  assert (Hr : _resolve_channel_identifier unicode_alnum world self s []
               = (Ok VNone, [search_request self h])).
  { rewrite (resolve_by_handle self s h []
               (extract_channel_id_none s Hno Hnot) Hh Ht Hkey).
    rewrite fetch_by_handle_step, Hw. cbn [decoded rbind]. rewrite Hitems.
    cbn [rbind]. now rewrite Hfalsy. }
  split; [exact Hr|].
  unfold fetch, fetch_thumbnails, Eff.run, Eff.bind. now rewrite Hr.
Qed.

(** X6. A reference with a literal channel ID is resolved, but without a
    key the aggregation fails with the error that names the missing key,
    before any request. *)
Theorem channel_id_without_key_sends_nothing :
  forall (self : client) (pre g post : pystr),
    is_channel_id unicode_alnum g ->
    opt_truthy (api_key self) = false ->
    Eff.run (fetch self (pre ++ g ++ post)) = (Raise (ValueError msg_no_key), []).
Proof.
  intros self pre g post Hg Hkey.
  destruct (search_channel_id_leftmost unicode_alnum pre g post Hg)
    as (pre' & g' & post' & Hs & _ & Hid & _).
  unfold fetch, fetch_thumbnails, Eff.run, Eff.bind.
  rewrite (resolve_by_id self _ g' [] Hs).
  destruct Hid as (rest & -> & _). cbn [Py.truthy PyStr.truthy negb].
  unfold _get_uploads_playlist. now rewrite Hkey.
Qed.

(** X7. When the platform lists no channel for the ID, the aggregation
    fails with the channel-not-found error after the one request for the
    channel; the playlist is never requested. *)
Theorem unknown_channel_is_reported_after_one_request :
  forall (self : client) (s g : pystr) (data : value),
    Re.search_channel_id unicode_alnum s = Some g ->
    opt_truthy (api_key self) = true ->
    world [] (channels_request self (VStr g)) = Response false (Some data) ->
    has_no_items data ->
    Eff.run (fetch self s)
    = (Raise (ValueError msg_channel_not_found), [channels_request self (VStr g)]).
Proof.
  intros self s g data Hs Hkey Hw (items & Hitems & Hfalsy).
  unfold fetch, fetch_thumbnails, Eff.run, Eff.bind.
  rewrite (resolve_by_id self s g [] Hs).
  destruct (search_channel_id_sound s g Hs) as ((rest & Hg & _) & _).
  replace (negb (Py.truthy (VStr g))) with false by now rewrite Hg.
  rewrite (uploads_step self (VStr g) [] Hkey), Hw. cbn [decoded rbind].
  rewrite Hitems. cbn [rbind]. now rewrite Hfalsy.
Qed.

(** X8. A failed request for the channel (transport failure, error status,
    body that is not JSON) ends the aggregation with that failure; nothing
    is retried and nothing else is requested. *)
Theorem failed_channel_request_ends_the_aggregation :
  forall (self : client) (s g : pystr) (e : exn),
    Re.search_channel_id unicode_alnum s = Some g ->
    opt_truthy (api_key self) = true ->
    decoded (world [] (channels_request self (VStr g))) = Raise e ->
    Eff.run (fetch self s) = (Raise e, [channels_request self (VStr g)]).
Proof.
  intros self s g e Hs Hkey Hw.
  unfold fetch, fetch_thumbnails, Eff.run, Eff.bind.
  rewrite (resolve_by_id self s g [] Hs).
  destruct (search_channel_id_sound s g Hs) as ((rest & Hg & _) & _).
  replace (negb (Py.truthy (VStr g))) with false by now rewrite Hg.
  rewrite (uploads_step self (VStr g) [] Hkey), Hw. reflexivity.
Qed.

Lemma comprehension_Forall2 {A B} (f : A -> result B) xs ys :
  Forall2 (fun x y => f x = Ok y) xs ys -> comprehension f xs = Ok ys.
Proof.
  induction 1 as [|x y xs ys Hx _ IH]; [reflexivity|].
  cbn [comprehension]. rewrite Hx. cbn [rbind]. now rewrite IH.
Qed.

Lemma latest_videos_batch
    self playlist_id max_results history playlist_data stats_data records id ids :
  world history (playlist_request self playlist_id max_results)
    = Response false (Some playlist_data) ->
  listed_video_ids playlist_data = Ok (List.map VStr (id :: ids)) ->
  world (history ++ [playlist_request self playlist_id max_results])
        (videos_request self (PyStr.join (lit ",") (id :: ids)))
    = Response false (Some stats_data) ->
  Py.get stats_data (lit "items") (VList []) = Ok records ->
  _get_latest_videos world self playlist_id max_results history
  = (Ok records,
     history ++ [playlist_request self playlist_id max_results;
                 videos_request self (PyStr.join (lit ",") (id :: ids))]).
Proof.
  intros Hw Hids Hw' Hrec.
  rewrite (latest_videos_step self playlist_id max_results history
             playlist_data id ids Hw Hids).
  rewrite Hw'. cbn [decoded rbind]. now rewrite Hrec.
Qed.

(** X9. When the playlist lists videos, their statistics are fetched by one
    request for all the identifiers, comma-joined in playlist order, after
    the playlist request; the items of the answer are returned as they are. *)
Theorem latest_videos_are_fetched_in_one_batch :
  forall (self : client) (playlist_id : value) (max_results : Z)
         (history : list request) (playlist_data stats_data records : value)
         (id : pystr) (ids : list pystr),
    world history (playlist_request self playlist_id max_results)
      = Response false (Some playlist_data) ->
    listed_video_ids playlist_data = Ok (List.map VStr (id :: ids)) ->
    world (history ++ [playlist_request self playlist_id max_results])
          (videos_request self (PyStr.join (lit ",") (id :: ids)))
      = Response false (Some stats_data) ->
    Py.get stats_data (lit "items") (VList []) = Ok records ->
    _get_latest_videos world self playlist_id max_results history
    = (Ok records,
       history ++ [playlist_request self playlist_id max_results;
                   videos_request self (PyStr.join (lit ",") (id :: ids))]).
Proof.
  intros self playlist_id max_results history playlist_data stats_data records
         id ids Hw Hids Hw' Hrec.
  exact (latest_videos_batch self playlist_id max_results history playlist_data
           stats_data records id ids Hw Hids Hw' Hrec).
Qed.

(** X10. When the statistics request fails, the failure is the outcome: no
    video is returned although the playlist was read, and nothing is
    retried. *)
Theorem failed_statistics_request_yields_no_videos :
  forall (self : client) (playlist_id : value) (max_results : Z)
         (history : list request) (playlist_data : value)
         (id : pystr) (ids : list pystr) (e : exn),
    world history (playlist_request self playlist_id max_results)
      = Response false (Some playlist_data) ->
    listed_video_ids playlist_data = Ok (List.map VStr (id :: ids)) ->
    decoded (world (history ++ [playlist_request self playlist_id max_results])
               (videos_request self (PyStr.join (lit ",") (id :: ids))))
      = Raise e ->
    _get_latest_videos world self playlist_id max_results history
    = (Raise e,
       history ++ [playlist_request self playlist_id max_results;
                   videos_request self (PyStr.join (lit ",") (id :: ids))]).
Proof.
  intros self playlist_id max_results history playlist_data id ids e Hw Hids Hw'.
  rewrite (latest_videos_step self playlist_id max_results history
             playlist_data id ids Hw Hids).
  now rewrite Hw'.
Qed.

(** The uploads playlist the body of the channel request names. *)
Definition names_uploads (data uploads : value) : Prop :=
  exists item details related,
    first_item_is data item
    /\ Py.getitem item (lit "contentDetails") = Ok details
    /\ Py.getitem details (lit "relatedPlaylists") = Ok related
    /\ Py.getitem related (lit "uploads") = Ok uploads.

(** X11. The aggregation of a channel given by a literal ID is three
    requests in a row (the channel, the first 12 items of its uploads
    playlist, the statistics of the listed videos), each built from the
    answer to the one before, and its result is the normalised records of
    the last answer, one for one and in order. *)
Theorem aggregation_is_three_dependent_requests :
  forall (self : client) (s g : pystr)
         (channel_data uploads playlist_data stats_data : value)
         (id : pystr) (ids : list pystr)
         (records : list value) (infos : list ThumbnailInfo),
    Re.search_channel_id unicode_alnum s = Some g ->
    opt_truthy (api_key self) = true ->
    world [] (channels_request self (VStr g))
      = Response false (Some channel_data) ->
    names_uploads channel_data uploads ->
    world [channels_request self (VStr g)] (playlist_request self uploads 12)
      = Response false (Some playlist_data) ->
    listed_video_ids playlist_data = Ok (List.map VStr (id :: ids)) ->
    world [channels_request self (VStr g); playlist_request self uploads 12]
          (videos_request self (PyStr.join (lit ",") (id :: ids)))
      = Response false (Some stats_data) ->
    Py.get stats_data (lit "items") (VList []) = Ok (VList records) ->
    Forall2 (fun record info => _build_thumbnail_info float_of_str record = Ok info)
            records infos ->
    Eff.run (fetch self s)
    = (Ok infos,
       [channels_request self (VStr g);
        playlist_request self uploads 12;
        videos_request self (PyStr.join (lit ",") (id :: ids))]).
Proof.
  intros self s g channel_data uploads playlist_data stats_data id ids records infos
         Hs Hkey Hw1 (item & details & related & (others & Hitems) & Hd & Hr & Hu)
         Hw2 Hids Hw3 Hrec Hall.
  unfold fetch, fetch_thumbnails, Eff.run.
  unfold Eff.bind at 1. rewrite (resolve_by_id self s g [] Hs).
  destruct (search_channel_id_sound s g Hs) as ((rest & Hg & _) & _).
  replace (negb (Py.truthy (VStr g))) with false by now rewrite Hg.
  unfold Eff.bind at 1.
  rewrite (uploads_step self (VStr g) [] Hkey), Hw1. cbn [decoded rbind].
  rewrite Hitems. cbn [rbind Py.truthy negb Py.first]. rewrite Hd. cbn [rbind].
  rewrite Hr. cbn [rbind]. rewrite Hu. cbn [app].
  unfold Eff.bind.
  rewrite (latest_videos_batch self uploads 12
             [channels_request self (VStr g)] playlist_data stats_data
             (VList records) id ids Hw2 Hids Hw3 Hrec).
  unfold Eff.lift. cbn [Py.iter rbind app].
  now rewrite (comprehension_Forall2 _ records infos Hall).
Qed.

(** X12. With a key, the lookup of one video is one request; when the
    answer lists no item the result is [None], not an error, and otherwise
    the first item alone is normalised. *)
Theorem single_lookup_normalises_first_item :
  forall (self : client) (video : pystr) (history : list request) (data : value),
    opt_truthy (api_key self) = true ->
    world history (videos_request self video) = Response false (Some data) ->
    (has_no_items data ->
       fetch_single_thumbnail float_of_str world self video history
       = (Ok None, history ++ [videos_request self video]))
    /\ (forall item,
          first_item_is data item ->
          fetch_single_thumbnail float_of_str world self video history
          = (let? info := _build_thumbnail_info float_of_str item in Ok (Some info),
             history ++ [videos_request self video])).
Proof.
  intros self video history data Hkey Hw.
  assert (Hstep : fetch_single_thumbnail float_of_str world self video history
                  = (let? items := Py.get data (lit "items") (VList []) in
                     if negb (Py.truthy items) then Ok None
                     else
                       let? item := Py.first items in
                       let? info := _build_thumbnail_info float_of_str item in
                       Ok (Some info),
                     history ++ [videos_request self video])).
  { unfold fetch_single_thumbnail. rewrite Hkey. cbn [negb].
    unfold Eff.bind. rewrite get_json_step. fold (videos_request self video).
    rewrite Hw. cbn [decoded]. unfold Eff.lift.
    destruct (Py.get data (lit "items") (VList [])) as [items|e]; [|reflexivity].
    cbn [rbind]. destruct (negb (Py.truthy items)); reflexivity. }
  rewrite Hstep. split.
  - intros (items & Hitems & Hfalsy). rewrite Hitems. cbn [rbind]. now rewrite Hfalsy.
  - intros item (others & Hitems). rewrite Hitems. reflexivity.
Qed.

End ClientRequests.

(** ** Normalisation: defaults and counters *)

Section NormalizeMore.

Import YouTubeClient.

Variable float_of_str : pystr -> result float.

Let build := _build_thumbnail_info float_of_str.

Lemma get_absent entries key default :
  Py.lookup key entries = None -> Py.get (VDict entries) key default = Ok default.
Proof. intros H. unfold Py.get. now rewrite H. Qed.

Lemma get_present entries key default v :
  Py.lookup key entries = Some v -> Py.get (VDict entries) key default = Ok v.
Proof. intros H. unfold Py.get. now rewrite H. Qed.

Lemma get_of_empty key default : Py.get (VDict []) key default = Ok default.
Proof. reflexivity. Qed.

Lemma score_of_zeros : score 0 0 0 = Ok (Float 0).
Proof. vm_compute. reflexivity. Qed.

Lemma of_int_0 : PyNum.of_int 0 = Ok 0%float.
Proof. vm_compute. reflexivity. Qed.

(** X13. A record with neither [snippet] nor [statistics] is normalised
    without error to the defaults: its own [id] ([None] when it has none),
    the default title, an empty description, an empty thumbnail URL and the
    score 0.0. *)
Theorem bare_record_gets_defaults :
  forall (entries : list (pystr * value)),
    Py.lookup (lit "snippet") entries = None ->
    Py.lookup (lit "statistics") entries = None ->
    build (VDict entries)
    = Ok {| video_id := match Py.lookup (lit "id") entries with
                        | Some v => v
                        | None => VNone
                        end;
            title := VStr default_title;
            description := VStr [];
            thumbnail_url := VStr [];
            ctr_score := Float 0 |}.
Proof.
  intros entries Hsn Hst. unfold build, _build_thumbnail_info.
  rewrite (get_absent entries _ _ Hsn), (get_absent entries _ _ Hst).
  cbn [rbind]. rewrite !get_of_empty. cbn [rbind].
  change (select_thumbnail_url (VDict [])) with (@Ok value (VStr [])).
  cbn [rbind]. unfold counter. rewrite !get_of_empty. cbn [rbind to_float].
  rewrite of_int_0. cbn [rbind]. rewrite score_of_zeros. cbn [rbind].
  unfold Py.get. destruct (Py.lookup (lit "id") entries); reflexivity.
Qed.

(** X14. A default is substituted for a counter that is missing, not for
    one that cannot be converted: when the record has no [snippet] and its
    view counter is a value [float] rejects ([None], a list, a string that
    is no number), normalisation raises what [float] raises. *)
Theorem unconvertible_counter_fails_normalisation :
  forall (entries stats : list (pystr * value)) (v : value) (e : exn),
    Py.lookup (lit "snippet") entries = None ->
    Py.lookup (lit "statistics") entries = Some (VDict stats) ->
    Py.lookup (lit "viewCount") stats = Some v ->
    to_float float_of_str v = Raise e ->
    build (VDict entries) = Raise e.
Proof.
  intros entries stats v e Hsn Hst Hv He. unfold build, _build_thumbnail_info.
  rewrite (get_absent entries _ _ Hsn), (get_present entries _ _ _ Hst).
  cbn [rbind]. rewrite !get_of_empty. cbn [rbind].
  change (select_thumbnail_url (VDict [])) with (@Ok value (VStr [])).
  cbn [rbind]. unfold counter at 1. rewrite (get_present stats _ _ _ Hv).
  cbn [rbind]. now rewrite He.
Qed.

End NormalizeMore.

(** ** The score at the edges *)

Section ScoreEdges.

Import YouTubeClient.

Lemma nan_of_spec (x : float) : Prim2SF x = S754_nan -> x = nan.
Proof. intros H. apply Prim2SF_inj. now rewrite H. Qed.

Lemma mul_nan_l (y : float) : (nan * y)%float = nan.
Proof. apply nan_of_spec. rewrite mul_spec. reflexivity. Qed.

Lemma add_nan_l (y : float) : (nan + y)%float = nan.
Proof. apply nan_of_spec. rewrite add_spec. reflexivity. Qed.

Lemma add_nan_r (x : float) : (x + nan)%float = nan.
Proof.
  apply nan_of_spec. rewrite add_spec. change (Prim2SF nan) with S754_nan.
  destruct (Prim2SF x) as [[|]|[|]| |]; reflexivity.
Qed.

Lemma div_nan_l (y : float) : (nan / y)%float = nan.
Proof. apply nan_of_spec. rewrite div_spec. reflexivity. Qed.

Lemma div_nan_r (x : float) : (x / nan)%float = nan.
Proof.
  apply nan_of_spec. rewrite div_spec. change (Prim2SF nan) with S754_nan.
  destruct (Prim2SF x); reflexivity.
Qed.

(** X15. A counter that is a NaN gives the score 100, the [int]: the
    comparison in [min(100, x)] is false for a NaN, so 100 is kept. *)
Theorem nan_counter_scores_100 :
  forall (views likes comments : float),
    views = nan \/ likes = nan \/ comments = nan ->
    score views likes comments = Ok (Int 100).
Proof.
  intros views likes comments H.
  destruct (score_unfold views likes comments) as (d & Hd & _ & _ & ->).
  assert (Hnan : ((likes + comments * 0.5) / d * 1200)%float = nan).
  { destruct H as [-> | [-> | ->]].
    - vm_compute in Hd. injection Hd as <-. now rewrite div_nan_r, mul_nan_l.
    - now rewrite add_nan_l, div_nan_l, mul_nan_l.
    - now rewrite mul_nan_l, add_nan_r, div_nan_l, mul_nan_l. }
  rewrite Hnan. reflexivity.
Qed.

(** X16. A view counter below 1 (zero, a fraction, a negative number)
    counts as one view. *)
Theorem views_below_one_count_as_one :
  forall (views likes comments : float),
    PyNum.lt (Float views) (Int 1) = true ->
    score views likes comments = score 1 likes comments.
Proof.
  intros views likes comments H. unfold score, PyNum.max_. rewrite H.
  replace (PyNum.lt (Float 1) (Int 1)) with false by (vm_compute; reflexivity).
  unfold PyNum.truediv. cbn [PyNum.operand].
  replace (PyNum.of_int 1) with (@Ok float 1%float) by (vm_compute; reflexivity).
  reflexivity.
Qed.

(** X30. The score is computed for every triple of counters, negative,
    infinite or NaN ones included: the divisor [max(views, 1)] is never
    zero, so the division never raises, and no conversion overflows. *)
Theorem score_never_raises :
  forall (views likes comments : float),
    exists s, score views likes comments = Ok s.
Proof.
  intros views likes comments.
  destruct (score_unfold views likes comments) as (d & _ & _ & _ & ->).
  eexists. reflexivity.
Qed.

End ScoreEdges.

(** ** Suggestions: the generation calls *)

Section SuggestionMore.

Import GeminiClient.

(** The image-generation call of a suggestion. *)
Definition image_call (title : pystr) : call :=
  GenerateImages (lit "imagen-3.0-generate-001")
    (lit "YouTube thumbnail, " ++ title
       ++ lit ", cinematic, high contrast, eye-catching").

(** The image generation gives no usable image: it raises, answers with a
    falsy response, with no list of images, with an empty list, or with a
    first image that is not bytes. *)
Definition gives_no_image (o : result image_response) : Prop :=
  match o with
  | Raise _ => True
  | Ok r =>
    response_truthy r = false
    \/ match generated_images r with
       | Raise _ => True
       | Ok [] => True
       | Ok (NotBytes :: _) => True
       | Ok (ImageBytes _ :: _) => False
       end
  end.

(** The text generation fails with [e]: the call raises it, or reading the
    text of its answer does. *)
Definition text_fails_with (o : result text_response) (e : exn) : Prop :=
  match o with
  | Raise e' => e' = e
  | Ok response => text response = Raise e
  end.

Variable textwrap_fill : pystr -> pystr.
Variable render_png : pystr -> result (list byte).

Let suggest := propose_new_thumbnail textwrap_fill render_png.
Let placeholder := _placeholder_image textwrap_fill render_png.

Lemma request_image_step g title current history :
  Eff.try_or (request_image g title current) current history
  = (Ok match generate_images g history (image_call title) with
        | Raise _ => current
        | Ok r =>
          if response_truthy r then
            match generated_images r with
            | Ok (ImageBytes data :: _) => data_url data
            | _ => current
            end
          else current
        end,
     history ++ [image_call title]).
Proof.
  unfold Eff.try_or, request_image, Eff.bind, Eff.call, Eff.lift, Eff.ret.
  fold (image_call title).
  destruct (generate_images g history (image_call title)) as [r|e]; [|reflexivity].
  destruct (response_truthy r); [|reflexivity].
  destruct (generated_images r) as [[|[data|] rest]|e]; reflexivity.
Qed.

Lemma suggest_returned_has_placeholder self title description
    original_thumbnail result history log :
  suggest self title description original_thumbnail history = (Ok result, log) ->
  exists drawn, placeholder title = Ok drawn.
Proof.
  intros H. destruct (placeholder title) as [drawn|e] eqn:Hp; [now exists drawn|].
  unfold placeholder in Hp. unfold suggest in H.
  rewrite (unrendered_placeholder_ends_suggestion textwrap_fill render_png
             self title description original_thumbnail e history Hp) in H.
  discriminate H.
Qed.

Lemma suggest_without_sdk_step self title description original_thumbnail
    drawn history :
  placeholder title = Ok drawn ->
  (if opt_truthy (api_key self) then genai self else None) = None ->
  suggest self title description original_thumbnail history
  = (Ok {| prompt := content_prompt_of title description original_thumbnail;
           idea := if negb (opt_truthy (api_key self)) then msg_use_key else [];
           image_data_url := Some drawn |}, history).
Proof.
  intros Hp Hg. unfold placeholder in Hp.
  unfold suggest, propose_new_thumbnail, Eff.bind, Eff.lift.
  now rewrite Hp, Hg.
Qed.

Lemma suggest_with_sdk_step self g title description original_thumbnail drawn :
  placeholder title = Ok drawn ->
  opt_truthy (api_key self) = true ->
  genai self = Some g ->
  Eff.run (suggest self title description original_thumbnail)
  = match generate_content g [] (text_call title description original_thumbnail) with
    | Raise e => (Raise e, [text_call title description original_thumbnail])
    | Ok response =>
      match text response with
      | Raise e => (Raise e, [text_call title description original_thumbnail])
      | Ok t =>
        let (image, log) :=
          Eff.try_or (request_image g title drawn) drawn
            [text_call title description original_thumbnail] in
        (rbind image (fun data_url =>
           Ok {| prompt := content_prompt_of title description original_thumbnail;
                 idea := PyStr.strip t;
                 image_data_url := Some data_url |}), log)
      end
    end.
Proof.
  intros Hp Hkey Hg. unfold placeholder in Hp.
  unfold suggest, propose_new_thumbnail, Eff.run.
  unfold Eff.bind at 1. unfold Eff.lift at 1. rewrite Hp, Hkey, Hg.
  unfold Eff.bind at 1. unfold Eff.call at 1.
  fold (text_call title description original_thumbnail). cbn [app].
  unfold Eff.bind at 1. unfold Eff.lift at 1.
  destruct (generate_content g [] _) as [response|e]; [|reflexivity].
  unfold Eff.bind at 1. unfold Eff.lift at 1.
  destruct (text response) as [t|e]; [|reflexivity].
  unfold Eff.bind.
  destruct (Eff.try_or _ _ _) as [[image|e] log]; reflexivity.
Qed.

(** X17. When the placeholder was drawn, the text generation answers and
    the image generation gives no usable image, whatever the reason, the
    suggestion is the stripped text with the placeholder image; both calls
    were issued, in that order. *)
Theorem failed_image_generation_keeps_the_idea :
  forall (self : client) (g : sdk) (title description : pystr)
         (original_thumbnail : option pystr) (response : text_response)
         (t drawn : pystr),
    placeholder title = Ok drawn ->
    opt_truthy (api_key self) = true ->
    genai self = Some g ->
    generate_content g [] (text_call title description original_thumbnail)
      = Ok response ->
    text response = Ok t ->
    gives_no_image
      (generate_images g [text_call title description original_thumbnail]
         (image_call title)) ->
    Eff.run (suggest self title description original_thumbnail)
    = (Ok {| prompt := content_prompt_of title description original_thumbnail;
             idea := PyStr.strip t;
             image_data_url := Some drawn |},
       [text_call title description original_thumbnail; image_call title]).
Proof.
  intros self g title description original_thumbnail response t drawn
         Hp Hkey Hg Hc Ht Hi.
  rewrite (suggest_with_sdk_step self g _ _ _ _ Hp Hkey Hg), Hc, Ht.
  rewrite request_image_step. cbn [rbind app]. unfold gives_no_image in Hi.
  destruct (generate_images g _ (image_call title)) as [r|e]; [|reflexivity].
  destruct Hi as [-> | Hi]; [reflexivity|].
  destruct (response_truthy r); [|reflexivity].
  destruct (generated_images r) as [[|[data|] rest]|e]; try reflexivity.
  destruct Hi.
Qed.

(** X18. When the placeholder was drawn and both generations answer, the
    suggestion carries the stripped text and the first generated image,
    encoded as a PNG data URL; the placeholder and the other images are
    left out. *)
Theorem generated_image_replaces_the_placeholder :
  forall (self : client) (g : sdk) (title description : pystr)
         (original_thumbnail : option pystr) (response : text_response)
         (t drawn : pystr)
         (images : image_response) (data : list byte) (others : list payload),
    placeholder title = Ok drawn ->
    opt_truthy (api_key self) = true ->
    genai self = Some g ->
    generate_content g [] (text_call title description original_thumbnail)
      = Ok response ->
    text response = Ok t ->
    generate_images g [text_call title description original_thumbnail]
      (image_call title) = Ok images ->
    response_truthy images = true ->
    generated_images images = Ok (ImageBytes data :: others) ->
    Eff.run (suggest self title description original_thumbnail)
    = (Ok {| prompt := content_prompt_of title description original_thumbnail;
             idea := PyStr.strip t;
             image_data_url := Some (data_url data) |},
       [text_call title description original_thumbnail; image_call title]).
Proof.
  intros self g title description original_thumbnail response t drawn images data
         others Hp Hkey Hg Hc Ht Hi Htr Him.
  rewrite (suggest_with_sdk_step self g _ _ _ _ Hp Hkey Hg), Hc, Ht.
  rewrite request_image_step, Hi, Htr, Him. reflexivity.
Qed.

(** X19. When the placeholder was drawn and the text generation fails, by
    the call or by reading its text, the failure is the outcome of the
    suggestion: it is not replaced by a fallback, and the image generation
    is not attempted. *)
Theorem failed_text_generation_is_not_recovered :
  forall (self : client) (g : sdk) (title description : pystr)
         (original_thumbnail : option pystr) (drawn : pystr) (e : exn),
    placeholder title = Ok drawn ->
    opt_truthy (api_key self) = true ->
    genai self = Some g ->
    text_fails_with
      (generate_content g [] (text_call title description original_thumbnail)) e ->
    Eff.run (suggest self title description original_thumbnail)
    = (Raise e, [text_call title description original_thumbnail]).
Proof.
  intros self g title description original_thumbnail drawn e Hp Hkey Hg Hf.
  rewrite (suggest_with_sdk_step self g _ _ _ _ Hp Hkey Hg).
  unfold text_fails_with in Hf.
  destruct (generate_content g [] _) as [response|e']; [now rewrite Hf | now subst].
Qed.

(** X20. With a key but without the generation library, and with a
    placeholder that was drawn, no call is issued and the suggestion carries
    the placeholder image and an empty idea: the instruction about the key
    is given only when the key is missing. *)
Theorem key_without_library_gives_empty_idea :
  forall (self : client) (title description : pystr)
         (original_thumbnail : option pystr) (drawn : pystr),
    placeholder title = Ok drawn ->
    opt_truthy (api_key self) = true ->
    genai self = None ->
    Eff.run (suggest self title description original_thumbnail)
    = (Ok {| prompt := content_prompt_of title description original_thumbnail;
             idea := [];
             image_data_url := Some drawn |}, []).
Proof.
  intros self title description original_thumbnail drawn Hp Hkey Hg.
  unfold Eff.run.
  rewrite (suggest_without_sdk_step self title description original_thumbnail
             drawn [] Hp); [now rewrite Hkey | now rewrite Hkey].
Qed.

(** X21. Only the first 500 characters of the description count: two
    descriptions that agree on them give the same calls and the same
    suggestion, from any history. *)
Theorem description_counts_up_to_500_characters :
  forall (self : client) (title d1 d2 : pystr)
         (original_thumbnail : option pystr) (history : list call),
    firstn 500 d1 = firstn 500 d2 ->
    suggest self title d1 original_thumbnail history
    = suggest self title d2 original_thumbnail history.
Proof.
  intros self title d1 d2 original_thumbnail history H.
  unfold suggest, propose_new_thumbnail, content_prompt_of. now rewrite H.
Qed.

(** *** The idea carries no outer white space *)

(** Neither the first nor the last character is white space. *)
Definition no_outer_space (s : pystr) : Prop :=
  (forall c rest, s = c :: rest -> PyStr.isspace c = false)
  /\ (forall c init, s = init ++ [c] -> PyStr.isspace c = false).

Lemma lstrip_split s :
  exists dropped,
    s = dropped ++ PyStr.lstrip s
    /\ Forall (fun c => PyStr.isspace c = true) dropped
    /\ (forall c rest, PyStr.lstrip s = c :: rest -> PyStr.isspace c = false).
Proof.
  induction s as [|c s (dropped & Hs & Hall & Hhead)]; simpl.
  - exists []. repeat split; [constructor | discriminate].
  - destruct (PyStr.isspace c) eqn:Hc.
    + exists (c :: dropped). simpl. split; [now rewrite <- Hs|].
      split; [now constructor | exact Hhead].
    + exists []. repeat split; [constructor|]. now intros c' rest [= <- _].
Qed.

Lemma rstrip_split s :
  exists dropped,
    s = PyStr.rstrip s ++ dropped
    /\ Forall (fun c => PyStr.isspace c = true) dropped
    /\ (forall c init, PyStr.rstrip s = init ++ [c] -> PyStr.isspace c = false).
Proof.
  unfold PyStr.rstrip.
  destruct (lstrip_split (rev s)) as (dropped & Hs & Hall & Hhead).
  exists (rev dropped). split; [|split].
  - rewrite <- rev_app_distr, <- Hs. now rewrite rev_involutive.
  - now apply Forall_rev.
  - intros c init H. apply Hhead with (rest := rev init).
    rewrite <- (rev_involutive (PyStr.lstrip (rev s))), H, rev_app_distr.
    reflexivity.
Qed.

Lemma strip_no_outer_space s : no_outer_space (PyStr.strip s).
Proof.
  unfold PyStr.strip.
  destruct (lstrip_split s) as (_ & _ & _ & Hhead).
  destruct (rstrip_split (PyStr.lstrip s)) as (dropped & Hs & _ & Hlast).
  split; [|exact Hlast].
  intros c rest H. rewrite H in Hs. simpl in Hs. exact (Hhead c _ Hs).
Qed.

(** The check of [no_outer_space] on a given string. *)
Definition outer_space_free (s : pystr) : bool :=
  match s with
  | [] => true
  | c :: _ => negb (PyStr.isspace c) && negb (PyStr.isspace (List.last s c))
  end.

Lemma outer_space_free_sound s : outer_space_free s = true -> no_outer_space s.
Proof.
  unfold outer_space_free. intros H. split.
  - intros c rest ->. apply andb_true_iff in H as [H _]. now apply negb_true_iff in H.
  - intros c init Hs. destruct s as [|c0 l]; [now destruct init|].
    apply andb_true_iff in H as [_ H]. apply negb_true_iff in H.
    now rewrite Hs, last_last in H.
Qed.

(** X22. The idea of a suggestion never starts or ends with white space:
    it is the fixed instruction, the empty string, or the stripped text of
    the generation. *)
Theorem idea_has_no_outer_space :
  forall (self : client) (title description : pystr)
         (original_thumbnail : option pystr)
         (result : GeminiResult) (log : list call),
    Eff.run (suggest self title description original_thumbnail) = (Ok result, log) ->
    no_outer_space (idea result).
Proof.
  intros self title description original_thumbnail result log H.
  destruct (suggest_returned_has_placeholder _ _ _ _ _ _ _ H) as (drawn & Hp).
  apply (f_equal (fun p => match fst p with
                           | Ok r => idea r
                           | Raise _ => []
                           end)) in H.
  cbn [fst idea] in H. rewrite <- H. clear H.
  destruct (opt_truthy (api_key self)) eqn:Hkey.
  - destruct (genai self) as [g|] eqn:Hg.
    + rewrite (suggest_with_sdk_step self g _ _ _ _ Hp Hkey Hg).
      destruct (generate_content g [] _) as [response|e];
        [|split; intros c l Hl; [discriminate Hl | now destruct l]].
      destruct (text response) as [t|e];
        [|split; intros c l Hl; [discriminate Hl | now destruct l]].
      rewrite request_image_step. cbn [rbind fst idea].
      apply strip_no_outer_space.
    + unfold Eff.run.
      rewrite (suggest_without_sdk_step self title description
                 original_thumbnail drawn [] Hp); [|now rewrite Hkey].
      rewrite Hkey. cbn [fst idea negb].
      split; intros c l Hl; [discriminate Hl | now destruct l].
  - unfold Eff.run.
    rewrite (suggest_without_sdk_step self title description
               original_thumbnail drawn [] Hp); [|now rewrite Hkey].
    rewrite Hkey. cbn [fst idea negb].
    apply outer_space_free_sound. vm_compute. reflexivity.
Qed.

(** *** The image is a PNG data URL *)

(** A character of the base64 alphabet, or the padding [=]. *)
Definition b64_char (c : codepoint) : bool :=
  existsb (N.eqb c) b64_alphabet || (c =? 61)%N.

(** A PNG data URL: the fixed prefix, then base64 text in groups of four. *)
Definition is_png_data_url (s : pystr) : Prop :=
  exists payload,
    s = lit "data:image/png;base64," ++ payload
    /\ Forall (fun c => b64_char c = true) payload
    /\ Nat.divide 4 (List.length payload).

Lemma b64_digit_char n : (n < 64)%N -> b64_char (b64_digit n) = true.
Proof.
  intros Hn.
  assert (Hall : forallb (fun k => b64_char (b64_digit (N.of_nat k))) (seq 0 64) = true)
    by (vm_compute; reflexivity).
  rewrite forallb_forall in Hall.
  rewrite <- (N2Nat.id n). apply Hall. apply in_seq. lia.
Qed.

Lemma b64encode_ind (P : list N -> Prop) :
  P [] -> (forall a, P [a]) -> (forall a b, P [a; b]) ->
  (forall a b c rest, P rest -> P (a :: b :: c :: rest)) ->
  forall bs, P bs.
Proof.
  intros H0 H1 H2 H3.
  assert (H : forall n bs, (List.length bs <= n)%nat -> P bs).
  { induction n as [|n IH]; intros bs Hlen.
    - destruct bs; [exact H0 | simpl in Hlen; lia].
    - destruct bs as [|a [|b [|c rest]]]; auto.
      apply H3, IH. simpl in Hlen. lia. }
  intros bs. now apply (H (List.length bs)).
Qed.

Lemma b64encode_shape bs :
  Forall (fun b => (b < 256)%N) bs ->
  Forall (fun c => b64_char c = true) (b64encode bs)
  /\ Nat.divide 4 (List.length (b64encode bs)).
Proof.
  induction bs as [|a|a b|a b c rest IH] using b64encode_ind; intros Hb.
  - split; [constructor | exists 0%nat; reflexivity].
  - inversion_clear Hb as [|? ? Ha _]. cbn [b64encode]. split.
    + repeat constructor; apply b64_digit_char.
      * apply N.Div0.div_lt_upper_bound; lia.
      * pose proof (N.mod_upper_bound a 4). lia.
    + exists 1%nat. reflexivity.
  - inversion_clear Hb as [|? ? Ha Hb']. inversion_clear Hb' as [|? ? Hb _].
    cbn [b64encode]. split.
    + repeat constructor; apply b64_digit_char.
      * apply N.Div0.div_lt_upper_bound; lia.
      * pose proof (N.mod_upper_bound a 4).
        assert (b / 16 < 16)%N by (apply N.Div0.div_lt_upper_bound; lia). lia.
      * pose proof (N.mod_upper_bound b 16). lia.
    + exists 1%nat. reflexivity.
  - inversion_clear Hb as [|? ? Ha Hb']. inversion_clear Hb' as [|? ? Hb Hb''].
    inversion_clear Hb'' as [|? ? Hc Hrest].
    destruct (IH Hrest) as (Hall & k & Hk). cbn [b64encode]. split.
    + repeat (apply Forall_cons); [..|exact Hall]; apply b64_digit_char.
      * apply N.Div0.div_lt_upper_bound; lia.
      * pose proof (N.mod_upper_bound a 4).
        assert (b / 16 < 16)%N by (apply N.Div0.div_lt_upper_bound; lia). lia.
      * pose proof (N.mod_upper_bound b 16).
        assert (c / 64 < 4)%N by (apply N.Div0.div_lt_upper_bound; lia). lia.
      * apply N.mod_upper_bound. lia.
    + exists (S k). cbn [app List.length]. lia.
Qed.

Lemma data_url_is_png_data_url png : is_png_data_url (data_url png).
Proof.
  exists (b64encode (List.map Byte.to_N png)). split; [reflexivity|].
  apply b64encode_shape. apply Forall_forall. intros n Hn.
  apply in_map_iff in Hn as (b & <- & _).
  pose proof (Byte.to_N_bounded b). lia.
Qed.

(** X23. The image of every suggestion is a PNG data URL: the prefix
    [data:image/png;base64,] followed by base64 text in groups of four
    characters, for the placeholder and for a generated image alike. *)
Theorem image_is_a_png_data_url :
  forall (self : client) (title description : pystr)
         (original_thumbnail : option pystr)
         (result : GeminiResult) (log : list call),
    Eff.run (suggest self title description original_thumbnail) = (Ok result, log) ->
    exists image, image_data_url result = Some image /\ is_png_data_url image.
Proof.
  intros self title description original_thumbnail result log H.
  destruct (suggest_returned_has_placeholder _ _ _ _ _ _ _ H) as (drawn & Hd).
  assert (Hp : is_png_data_url drawn).
  { destruct (placeholder_is_rendered_text textwrap_fill render_png title drawn Hd)
      as (png & _ & ->).
    apply data_url_is_png_data_url. }
  destruct (opt_truthy (api_key self)) eqn:Hkey.
  - destruct (genai self) as [g|] eqn:Hg.
    + rewrite (suggest_with_sdk_step self g _ _ _ _ Hd Hkey Hg) in H.
      destruct (generate_content g [] _) as [response|e]; [|discriminate H].
      destruct (text response) as [t|e]; [|discriminate H].
      rewrite request_image_step in H. cbn [rbind] in H.
      apply (f_equal (fun p => match fst p with
                               | Ok r => image_data_url r
                               | Raise _ => None
                               end)) in H.
      cbn [fst image_data_url] in H. rewrite <- H. eexists. split; [reflexivity|].
      destruct (generate_images g _ (image_call title)) as [r|e]; [|exact Hp].
      destruct (response_truthy r); [|exact Hp].
      destruct (generated_images r) as [[|[data|] rest]|e]; try exact Hp.
      apply data_url_is_png_data_url.
    + unfold Eff.run in H.
      rewrite (suggest_without_sdk_step self title description
                 original_thumbnail drawn [] Hd) in H; [|now rewrite Hkey].
      apply (f_equal (fun p => match fst p with
                               | Ok r => image_data_url r
                               | Raise _ => None
                               end)) in H.
      cbn [fst image_data_url] in H. rewrite <- H. eauto.
  - unfold Eff.run in H.
    rewrite (suggest_without_sdk_step self title description
               original_thumbnail drawn [] Hd) in H; [|now rewrite Hkey].
    apply (f_equal (fun p => match fst p with
                             | Ok r => image_data_url r
                             | Raise _ => None
                             end)) in H.
    cbn [fst image_data_url] in H. rewrite <- H. eauto.
Qed.

End SuggestionMore.

(** ** The handlers *)

Section HandlerFacts.

Import YouTubeClient.

Variable unicode_alnum : codepoint -> bool.
Variable float_of_str : pystr -> result float.
Variable world : list request -> request -> outcome.
Variable textwrap_fill : pystr -> pystr.
Variable render_png : pystr -> result (list byte).
Variable json_error_text : pystr.
Variable str_of_value : value -> pystr.

Let fetch_channel :=
  Main.fetch_channel unicode_alnum float_of_str world json_error_text.
Let regenerate :=
  Main.regenerate_thumbnail unicode_alnum float_of_str world
    textwrap_fill render_png str_of_value.

(** Without a key the aggregation raises one of three errors before any
    request. *)
Lemma fetch_without_key self s history :
  opt_truthy (api_key self) = false ->
  exists detail,
    fetch_thumbnails unicode_alnum float_of_str world self s history
    = (Raise (ValueError detail), history)
    /\ (detail = msg_unresolved \/ detail = msg_handle_needs_key
        \/ detail = msg_no_key).
Proof.
  intros Hkey. unfold fetch_thumbnails, Eff.bind, _resolve_channel_identifier.
  destruct (_extract_channel_id unicode_alnum s) as [g|] eqn:Hid.
  - cbn [opt_truthy opt_value]. destruct (PyStr.truthy g) eqn:Hg.
    + cbn [Eff.ret Py.truthy]. rewrite Hg. cbn [negb].
      unfold _get_uploads_playlist. rewrite Hkey.
      exists msg_no_key. split; [reflexivity|]. right. right. reflexivity.
    + destruct (opt_truthy (_extract_handle s)).
      * rewrite Hkey.
        exists msg_handle_needs_key. split; [reflexivity|]. right. left. reflexivity.
      * exists msg_unresolved. split; [reflexivity|]. left. reflexivity.
  - cbn [opt_truthy]. destruct (opt_truthy (_extract_handle s)).
    + rewrite Hkey.
      exists msg_handle_needs_key. split; [reflexivity|]. right. left. reflexivity.
    + exists msg_unresolved. split; [reflexivity|]. left. reflexivity.
Qed.

(** With a key and a literal channel ID, a failed channel request is the
    outcome of the aggregation. *)
Lemma fetch_fails_at_channel_request self s g e :
  Re.search_channel_id unicode_alnum s = Some g ->
  opt_truthy (api_key self) = true ->
  decoded (world [] (channels_request self (VStr g))) = Raise e ->
  fetch_thumbnails unicode_alnum float_of_str world self s []
  = (Raise e, [channels_request self (VStr g)]).
Proof.
  intros Hs Hkey Hw. unfold fetch_thumbnails, Eff.bind.
  rewrite (resolve_by_id unicode_alnum world self s g [] Hs).
  destruct (search_channel_id_sound unicode_alnum s g Hs) as ((rest & Hg & _) & _).
  replace (negb (Py.truthy (VStr g))) with false by now rewrite Hg.
  rewrite (uploads_step world self (VStr g) [] Hkey), Hw. reflexivity.
Qed.

(** X24. Without a key every channel request is answered with status 400
    and one of three explanations (no channel in the reference, a handle
    needs the key, the key is missing), and nothing is sent upstream. *)
Theorem channel_request_without_key_is_status_400 :
  forall (yt_client : client) (url : pystr),
    opt_truthy (api_key yt_client) = false ->
    exists detail,
      fetch_channel yt_client url []
      = (Main.Failed (Main.HTTPException 400 detail), [])
      /\ (detail = msg_unresolved \/ detail = msg_handle_needs_key
          \/ detail = msg_no_key).
Proof.
  intros yt_client url Hkey.
  destruct (fetch_without_key yt_client url [] Hkey) as (detail & Hf & Hd).
  exists detail. split; [|exact Hd].
  unfold fetch_channel, Main.fetch_channel. now rewrite Hf.
Qed.

(** X25. A channel request that fails in transport or by its status is
    answered with status 502; a body that is not JSON is answered with
    status 400 and the text of the decoder, as a [ValueError] is. *)
Theorem failed_channel_request_status :
  forall (yt_client : client) (url g : pystr),
    Re.search_channel_id unicode_alnum url = Some g ->
    opt_truthy (api_key yt_client) = true ->
    (decoded (world [] (channels_request yt_client (VStr g))) = Raise HTTPError ->
       fetch_channel yt_client url []
       = (Main.Failed (Main.HTTPException 502 Main.msg_upstream),
          [channels_request yt_client (VStr g)]))
    /\ (world [] (channels_request yt_client (VStr g)) = Response false None ->
        fetch_channel yt_client url []
        = (Main.Failed (Main.HTTPException 400 json_error_text),
           [channels_request yt_client (VStr g)])).
Proof.
  intros yt_client url g Hs Hkey. split; intros Hw.
  - unfold fetch_channel, Main.fetch_channel.
    now rewrite (fetch_fails_at_channel_request yt_client url g HTTPError Hs Hkey Hw).
  - unfold fetch_channel, Main.fetch_channel.
    rewrite (fetch_fails_at_channel_request yt_client url g JSONDecodeError Hs Hkey);
      [reflexivity | now rewrite Hw].
Qed.

(** X26. A channel answer whose first item has no [contentDetails] is not
    handled: the [KeyError] or [TypeError] of the lookup leaves the
    handler as it is, with neither status 400 nor 502. *)
Theorem malformed_channel_answer_is_unhandled :
  forall (yt_client : client) (url g : pystr) (data item : value) (e : exn),
    Re.search_channel_id unicode_alnum url = Some g ->
    opt_truthy (api_key yt_client) = true ->
    world [] (channels_request yt_client (VStr g)) = Response false (Some data) ->
    first_item_is data item ->
    Py.getitem item (lit "contentDetails") = Raise e ->
    fetch_channel yt_client url []
    = (Main.Failed (Main.Unhandled e), [channels_request yt_client (VStr g)]).
Proof.
  intros yt_client url g data item e Hs Hkey Hw (others & Hitems) He.
  unfold fetch_channel, Main.fetch_channel, fetch_thumbnails, Eff.bind.
  rewrite (resolve_by_id unicode_alnum world yt_client url g [] Hs).
  destruct (search_channel_id_sound unicode_alnum url g Hs) as ((rest & Hg & _) & _).
  replace (negb (Py.truthy (VStr g))) with false by now rewrite Hg.
  rewrite (uploads_step world yt_client (VStr g) [] Hkey), Hw. cbn [decoded rbind].
  rewrite Hitems. cbn [rbind Py.truthy negb Py.first]. rewrite He. cbn [rbind app].
  unfold Py.getitem in He. destruct item; try (injection He as <-; reflexivity).
  destruct (Py.lookup (lit "contentDetails") entries); [discriminate He|].
  injection He as <-. reflexivity.
Qed.

(** X27. Without a YouTube key the regeneration sends nothing upstream: the
    suggestion is asked for without an original thumbnail, and the answer
    carries no thumbnail list, with or without a channel in the query. *)
Theorem regenerate_without_youtube_key :
  forall (yt_client : client) (gemini_client : GeminiClient.client)
         (query_channel_url : option pystr) (video title description : pystr)
         (requests : list request) (calls calls' : list GeminiClient.call)
         (result : GeminiClient.GeminiResult),
    opt_truthy (api_key yt_client) = false ->
    GeminiClient.propose_new_thumbnail textwrap_fill render_png gemini_client
      title description None calls = (Ok result, calls') ->
    regenerate yt_client gemini_client query_channel_url video title description
      (requests, calls)
    = (Main.Rendered {| Main.thumbnails := None;
                        Main.channel_url := query_channel_url;
                        Main.regenerated_for := Some video;
                        Main.gemini_result := Some result |},
       (requests, calls')).
Proof.
  intros yt_client gemini_client query_channel_url video title description
         requests calls calls' result Hkey Hp.
  unfold regenerate, Main.regenerate_thumbnail.
  unfold fetch_single_thumbnail at 1. rewrite Hkey. cbn [negb Eff.ret].
  cbn [Main.original_thumbnail_of]. rewrite Hp.
  destruct query_channel_url as [url|]; [|reflexivity].
  destruct (fetch_without_key yt_client url requests Hkey) as (detail & Hf & _).
  unfold Eff.try_or. now rewrite Hf.
Qed.

(** X28. A failure of the channel re-fetch, whatever it is, does not reach
    the caller of the regeneration: the answer is rendered with the
    suggestion and without a thumbnail list. *)
Theorem failed_refetch_is_swallowed :
  forall (yt_client : client) (gemini_client : GeminiClient.client)
         (url video title description : pystr)
         (requests requests1 requests2 : list request)
         (calls calls1 : list GeminiClient.call)
         (original : option ThumbnailInfo) (result : GeminiClient.GeminiResult)
         (e : exn),
    fetch_single_thumbnail float_of_str world yt_client video requests
      = (Ok original, requests1) ->
    GeminiClient.propose_new_thumbnail textwrap_fill render_png gemini_client
      title description (Main.original_thumbnail_of str_of_value original) calls
      = (Ok result, calls1) ->
    fetch_thumbnails unicode_alnum float_of_str world yt_client url requests1
      = (Raise e, requests2) ->
    regenerate yt_client gemini_client (Some url) video title description
      (requests, calls)
    = (Main.Rendered {| Main.thumbnails := None;
                        Main.channel_url := Some url;
                        Main.regenerated_for := Some video;
                        Main.gemini_result := Some result |},
       (requests2, calls1)).
Proof.
  intros yt_client gemini_client url video title description requests requests1
         requests2 calls calls1 original result e Ho Hp Hf.
  unfold regenerate, Main.regenerate_thumbnail. rewrite Ho, Hp.
  unfold Eff.try_or. now rewrite Hf.
Qed.

(** X29. A failure of the lookup of the original thumbnail is not handled
    by the regeneration: it ends the handler before any generation call,
    although the thumbnail is only context for the prompt. *)
Theorem failed_original_lookup_ends_regeneration :
  forall (yt_client : client) (gemini_client : GeminiClient.client)
         (query_channel_url : option pystr) (video title description : pystr)
         (requests : list request) (calls : list GeminiClient.call) (e : exn),
    opt_truthy (api_key yt_client) = true ->
    decoded (world requests (videos_request yt_client video)) = Raise e ->
    regenerate yt_client gemini_client query_channel_url video title description
      (requests, calls)
    = (Main.Failed (Main.Unhandled e),
       (requests ++ [videos_request yt_client video], calls)).
Proof.
  intros yt_client gemini_client query_channel_url video title description
         requests calls e Hkey Hw.
  unfold regenerate, Main.regenerate_thumbnail, fetch_single_thumbnail.
  rewrite Hkey. cbn [negb]. unfold Eff.bind at 1. rewrite get_json_step.
  fold (videos_request yt_client video). now rewrite Hw.
Qed.

End HandlerFacts.

(* ------------------------------------------------------------------ *)
(** ** Further concrete instances *)

Definition demo_client : YouTubeClient.client :=
  YouTubeClient.init (Some (lit "key")).

Definition demo_channel_id : pystr := lit "UCabcdefghijklmnopqrstuv".

Definition demo_channel_url : pystr :=
  lit "https://www.youtube.com/channel/UCabcdefghijklmnopqrstuv".

(** The answer to a search that finds the demo channel. *)
Definition search_body : value :=
  VDict [ (lit "items",
           VList [ VDict [ (lit "id",
                            VDict [(lit "channelId", VStr demo_channel_id)]) ] ]) ].

Definition network_with_channel
    : list YouTubeClient.request -> YouTubeClient.request -> YouTubeClient.outcome :=
  fun _ _ => YouTubeClient.Response false (Some search_body).

(** The answers of the platform to the three requests of an aggregation. *)
Definition channel_body : value :=
  VDict [ (lit "items",
           VList [ VDict [ (lit "contentDetails",
                            VDict [ (lit "relatedPlaylists",
                                     VDict [(lit "uploads", VStr (lit "UUabc"))]) ]) ] ]) ].

Definition playlist_item (id : pystr) : value :=
  VDict [ (lit "snippet",
           VDict [ (lit "resourceId", VDict [(lit "videoId", VStr id)]) ]) ].

Definition playlist_body : value :=
  VDict [ (lit "items", VList [playlist_item (lit "v1"); playlist_item (lit "v2")]) ].

Definition stats_body : value :=
  VDict [ (lit "items", VList [example_record; unviewed_record]) ].

Definition staged_network
    : list YouTubeClient.request -> YouTubeClient.request -> YouTubeClient.outcome :=
  fun history _ =>
    match history with
    | [] => YouTubeClient.Response false (Some channel_body)
    | [_] => YouTubeClient.Response false (Some playlist_body)
    | _ => YouTubeClient.Response false (Some stats_body)
    end.

(** A network that answers the first request with a playlist and fails
    afterwards. *)
Definition network_failing_after_playlist
    : list YouTubeClient.request -> YouTubeClient.request -> YouTubeClient.outcome :=
  fun history _ =>
    match history with
    | [] => YouTubeClient.Response false (Some playlist_body)
    | _ => YouTubeClient.TransportError
    end.

(** A network that answers the first request with no item and fails
    afterwards. *)
Definition network_failing_after_lookup
    : list YouTubeClient.request -> YouTubeClient.request -> YouTubeClient.outcome :=
  fun history _ =>
    match history with
    | [] => YouTubeClient.Response false (Some (VDict [(lit "items", VList [])]))
    | _ => YouTubeClient.TransportError
    end.

(** A network whose channel answer has an item without content details. *)
Definition network_with_bare_item
    : list YouTubeClient.request -> YouTubeClient.request -> YouTubeClient.outcome :=
  fun _ _ =>
    YouTubeClient.Response false (Some (VDict [(lit "items", VList [VDict []])])).

Definition example_info : YouTubeClient.ThumbnailInfo :=
  {| YouTubeClient.video_id := VStr (lit "v1");
     YouTubeClient.title := VStr YouTubeClient.default_title;
     YouTubeClient.description := VStr [];
     YouTubeClient.thumbnail_url := VStr [];
     YouTubeClient.ctr_score := Float 72 |}.

Definition unviewed_info : YouTubeClient.ThumbnailInfo :=
  {| YouTubeClient.video_id := VStr (lit "v2");
     YouTubeClient.title := VStr (lit "First upload");
     YouTubeClient.description := VStr [];
     YouTubeClient.thumbnail_url := VStr (lit "https://i.ytimg.com/vi/v2/hq.jpg");
     YouTubeClient.ctr_score := Int 100 |}.

(** An SDK whose two generations answer. *)
Definition sdk_with_image : GeminiClient.sdk :=
  {| GeminiClient.generate_content :=
       fun _ _ => Ok {| GeminiClient.text := Ok (lit "  Three concepts.  ") |};
     GeminiClient.generate_images :=
       fun _ _ =>
         Ok {| GeminiClient.response_truthy := true;
               GeminiClient.generated_images :=
                 Ok [GeminiClient.ImageBytes [x89; x50; x4e; x47];
                     GeminiClient.NotBytes] |} |}.

Definition keyless_gemini : GeminiClient.client :=
  {| GeminiClient.api_key := None; GeminiClient.genai := Some sdk_with_image |}.

Definition keyed_gemini (g : option GeminiClient.sdk) : GeminiClient.client :=
  {| GeminiClient.api_key := Some (lit "key"); GeminiClient.genai := g |}.

Definition plain_str : value -> pystr := fun _ => lit "?".

(** ** The further properties at concrete inputs *)

Lemma not_in_by_check (c : N) (s : pystr) :
  existsb (N.eqb c) s = false -> ~ In c s.
Proof.
  intros H Hin. assert (Ht : existsb (N.eqb c) s = true).
  { apply existsb_exists. exists c. split; [exact Hin | apply N.eqb_refl]. }
  congruence.
Qed.

Lemma no_bare_id_by_check (s : pystr) :
  PyStr.startswith s (lit "UC") = false ->
  ~ (PyStr.startswith s (lit "UC") = true /\ (24 <= List.length s)%nat).
Proof. intros H [H' _]. congruence. Qed.

Lemma demo_channel_id_is_literal : is_channel_id ascii_only demo_channel_id.
Proof.
  exists (lit "abcdefghijklmnopqrstuv").
  split; [vm_compute; reflexivity|]. split; [vm_compute; reflexivity|].
  vm_compute. repeat constructor.
Qed.

Lemma extracted_handle_is_first_run_witness :
  exists pre h post,
    YouTubeClient._extract_handle (lit "https://www.youtube.com/@veritasium/videos")
      = Some h
    /\ lit "https://www.youtube.com/@veritasium/videos" = pre ++ 64%N :: h ++ post
    /\ PyStr.truthy h = true
    /\ Forall (fun c => Re.handle_char c = true) h
    /\ (forall c post', post = c :: post' -> Re.handle_char c = false)
    /\ (forall pre2 c rest2,
          lit "https://www.youtube.com/@veritasium/videos" = pre2 ++ 64%N :: c :: rest2 ->
          Re.handle_char c = true -> (List.length pre <= List.length pre2)%nat).
Proof.
  assert (H : contains_handle (lit "https://www.youtube.com/@veritasium/videos")).
  { exists (lit "https://www.youtube.com/"), 118%N, (lit "eritasium/videos").
    split; vm_compute; reflexivity. }
  exact (extracted_handle_is_first_run _ H).
Defined.

Lemma reference_without_id_or_handle_is_unresolved_witness :
  Eff.run (YouTubeClient._resolve_channel_identifier ascii_only network_down
             demo_client (lit "https://www.youtube.com/c/SomeName"))
    = (Ok VNone, [])
  /\ Eff.run (YouTubeClient.fetch_thumbnails ascii_only float_of_digits network_down
                demo_client (lit "https://www.youtube.com/c/SomeName"))
     = (Raise (ValueError YouTubeClient.msg_unresolved), []).
Proof.
  refine (reference_without_id_or_handle_is_unresolved ascii_only float_of_digits
            network_down demo_client (lit "https://www.youtube.com/c/SomeName")
            _ _ _).
  - apply not_in_by_check. vm_compute. reflexivity.
  - apply no_channel_id_by_search. vm_compute. reflexivity.
  - apply no_bare_id_by_check. vm_compute. reflexivity.
Defined.

Lemma handle_lookup_returns_first_channel_witness :
  Re.search_handle (lit "@имя") = None
  /\ Eff.run (YouTubeClient._resolve_channel_identifier ascii_only
                network_with_channel demo_client (lit "@имя"))
     = (Ok (VStr demo_channel_id), [search_request demo_client (lit "имя")]).
Proof.
  split; [vm_compute; reflexivity|].
  refine (handle_lookup_returns_first_channel ascii_only network_with_channel
            demo_client (lit "@имя") (lit "имя")
            search_body
            (VDict [(lit "id", VDict [(lit "channelId", VStr demo_channel_id)])])
            (VDict [(lit "channelId", VStr demo_channel_id)])
            (VStr demo_channel_id) _ _ _ _ _ _ _ _ _).
  - apply no_channel_id_by_search. vm_compute. reflexivity.
  - apply no_bare_id_by_check. vm_compute. reflexivity.
  - vm_compute. reflexivity.
  - vm_compute. reflexivity.
  - vm_compute. reflexivity.
  - reflexivity.
  - exists []. vm_compute. reflexivity.
  - vm_compute. reflexivity.
  - vm_compute. reflexivity.
Defined.

Lemma handle_lookup_without_result_is_unresolved_witness :
  Eff.run (YouTubeClient._resolve_channel_identifier ascii_only network_without_items
             demo_client (lit "@nobody"))
    = (Ok VNone, [search_request demo_client (lit "nobody")])
  /\ Eff.run (YouTubeClient.fetch_thumbnails ascii_only float_of_digits
                network_without_items demo_client (lit "@nobody"))
     = (Raise (ValueError YouTubeClient.msg_unresolved),
        [search_request demo_client (lit "nobody")]).
Proof.
  refine (handle_lookup_without_result_is_unresolved ascii_only float_of_digits
            network_without_items demo_client (lit "@nobody") (lit "nobody")
            (VDict [(lit "items", VList [])]) _ _ _ _ _ _ _).
  - apply no_channel_id_by_search. vm_compute. reflexivity.
  - apply no_bare_id_by_check. vm_compute. reflexivity.
  - vm_compute. reflexivity.
  - vm_compute. reflexivity.
  - vm_compute. reflexivity.
  - reflexivity.
  - exists (VList []). split; vm_compute; reflexivity.
Defined.

Lemma channel_id_without_key_sends_nothing_witness :
  Eff.run (YouTubeClient.fetch_thumbnails ascii_only float_of_digits network_down
             (YouTubeClient.init None)
             (lit "https://www.youtube.com/channel/" ++ demo_channel_id ++ lit "/about"))
  = (Raise (ValueError YouTubeClient.msg_no_key), []).
Proof.
  exact (channel_id_without_key_sends_nothing ascii_only float_of_digits network_down
           (YouTubeClient.init None) (lit "https://www.youtube.com/channel/")
           demo_channel_id (lit "/about") demo_channel_id_is_literal eq_refl).
Defined.

Lemma demo_url_names_demo_channel :
  Re.search_channel_id ascii_only demo_channel_url = Some demo_channel_id.
Proof. vm_compute. reflexivity. Qed.

Lemma unknown_channel_is_reported_after_one_request_witness :
  Eff.run (YouTubeClient.fetch_thumbnails ascii_only float_of_digits
             network_without_items demo_client demo_channel_url)
  = (Raise (ValueError YouTubeClient.msg_channel_not_found),
     [channels_request demo_client (VStr demo_channel_id)]).
Proof.
  refine (unknown_channel_is_reported_after_one_request ascii_only float_of_digits
            network_without_items demo_client demo_channel_url demo_channel_id
            (VDict [(lit "items", VList [])]) demo_url_names_demo_channel _ _ _).
  - vm_compute. reflexivity.
  - reflexivity.
  - exists (VList []). split; vm_compute; reflexivity.
Defined.

Lemma failed_channel_request_ends_the_aggregation_witness :
  Eff.run (YouTubeClient.fetch_thumbnails ascii_only float_of_digits network_down
             demo_client demo_channel_url)
  = (Raise HTTPError, [channels_request demo_client (VStr demo_channel_id)]).
Proof.
  refine (failed_channel_request_ends_the_aggregation ascii_only float_of_digits
            network_down demo_client demo_channel_url demo_channel_id HTTPError
            demo_url_names_demo_channel _ _).
  - vm_compute. reflexivity.
  - reflexivity.
Defined.

Lemma playlist_body_lists_two_videos :
  listed_video_ids playlist_body = Ok (List.map VStr [lit "v1"; lit "v2"]).
Proof. vm_compute. reflexivity. Qed.

Lemma latest_videos_are_fetched_in_one_batch_witness :
  YouTubeClient._get_latest_videos staged_network demo_client
    (VStr (lit "UUabc")) 12 [channels_request demo_client (VStr demo_channel_id)]
  = (Ok (VList [example_record; unviewed_record]),
     [channels_request demo_client (VStr demo_channel_id)]
       ++ [playlist_request demo_client (VStr (lit "UUabc")) 12;
           videos_request demo_client (PyStr.join (lit ",") [lit "v1"; lit "v2"])]).
Proof.
  refine (latest_videos_are_fetched_in_one_batch staged_network demo_client
            (VStr (lit "UUabc")) 12 [channels_request demo_client (VStr demo_channel_id)]
            playlist_body stats_body (VList [example_record; unviewed_record])
            (lit "v1") [lit "v2"] _ playlist_body_lists_two_videos _ _).
  - reflexivity.
  - reflexivity.
  - vm_compute. reflexivity.
Defined.

Lemma failed_statistics_request_yields_no_videos_witness :
  YouTubeClient._get_latest_videos network_failing_after_playlist demo_client
    (VStr (lit "UUabc")) 12 []
  = (Raise HTTPError,
     [] ++ [playlist_request demo_client (VStr (lit "UUabc")) 12;
            videos_request demo_client (PyStr.join (lit ",") [lit "v1"; lit "v2"])]).
Proof.
  refine (failed_statistics_request_yields_no_videos network_failing_after_playlist
            demo_client (VStr (lit "UUabc")) 12 [] playlist_body
            (lit "v1") [lit "v2"] HTTPError _ playlist_body_lists_two_videos _).
  - reflexivity.
  - reflexivity.
Defined.

Lemma stats_body_normalises :
  Forall2 (fun record info =>
             YouTubeClient._build_thumbnail_info float_of_digits record = Ok info)
          [example_record; unviewed_record] [example_info; unviewed_info].
Proof. repeat constructor; vm_compute; reflexivity. Qed.

Lemma aggregation_is_three_dependent_requests_witness :
  Eff.run (YouTubeClient.fetch_thumbnails ascii_only float_of_digits staged_network
             demo_client demo_channel_url)
  = (Ok [example_info; unviewed_info],
     [channels_request demo_client (VStr demo_channel_id);
      playlist_request demo_client (VStr (lit "UUabc")) 12;
      videos_request demo_client (PyStr.join (lit ",") [lit "v1"; lit "v2"])]).
Proof.
  refine (aggregation_is_three_dependent_requests ascii_only float_of_digits
            staged_network demo_client demo_channel_url demo_channel_id
            channel_body (VStr (lit "UUabc")) playlist_body stats_body
            (lit "v1") [lit "v2"] [example_record; unviewed_record]
            [example_info; unviewed_info]
            demo_url_names_demo_channel _ _ _ _ playlist_body_lists_two_videos _ _
            stats_body_normalises).
  - vm_compute. reflexivity.
  - reflexivity.
  - eexists _, _, _. split; [exists []; vm_compute; reflexivity|].
    split; [vm_compute; reflexivity|]. split; vm_compute; reflexivity.
  - reflexivity.
  - reflexivity.
  - vm_compute. reflexivity.
Defined.

Lemma single_lookup_normalises_first_item_witness :
  YouTubeClient.fetch_single_thumbnail float_of_digits staged_network demo_client
    (lit "v1") [channels_request demo_client (VStr demo_channel_id);
                playlist_request demo_client (VStr (lit "UUabc")) 12]
  = (Ok (Some example_info),
     [channels_request demo_client (VStr demo_channel_id);
      playlist_request demo_client (VStr (lit "UUabc")) 12]
       ++ [videos_request demo_client (lit "v1")]).
Proof.
  assert (Hb : YouTubeClient._build_thumbnail_info float_of_digits example_record
               = Ok example_info) by (vm_compute; reflexivity).
  rewrite (proj2 (single_lookup_normalises_first_item float_of_digits staged_network
                    demo_client (lit "v1")
                    [channels_request demo_client (VStr demo_channel_id);
                     playlist_request demo_client (VStr (lit "UUabc")) 12]
                    stats_body eq_refl eq_refl)
             example_record
             (ex_intro _ [unviewed_record] eq_refl)).
  rewrite Hb. reflexivity.
Defined.

Lemma bare_record_gets_defaults_witness :
  YouTubeClient._build_thumbnail_info float_of_digits
    (VDict [(lit "id", VStr (lit "v9")); (lit "etag", VStr (lit "x"))])
  = Ok {| YouTubeClient.video_id :=
            match Py.lookup (lit "id")
                    [(lit "id", VStr (lit "v9")); (lit "etag", VStr (lit "x"))] with
            | Some v => v
            | None => VNone
            end;
          YouTubeClient.title := VStr YouTubeClient.default_title;
          YouTubeClient.description := VStr [];
          YouTubeClient.thumbnail_url := VStr [];
          YouTubeClient.ctr_score := Float 0 |}.
Proof.
  refine (bare_record_gets_defaults float_of_digits
            [(lit "id", VStr (lit "v9")); (lit "etag", VStr (lit "x"))] _ _);
    vm_compute; reflexivity.
Defined.

Lemma unconvertible_counter_fails_normalisation_witness :
  YouTubeClient._build_thumbnail_info float_of_digits
    (VDict [(lit "id", VStr (lit "v9"));
            (lit "statistics", VDict [(lit "viewCount", VNone)])])
  = Raise TypeError.
Proof.
  refine (unconvertible_counter_fails_normalisation float_of_digits
            [(lit "id", VStr (lit "v9"));
             (lit "statistics", VDict [(lit "viewCount", VNone)])]
            [(lit "viewCount", VNone)] VNone TypeError _ _ _ _);
    vm_compute; reflexivity.
Defined.

Lemma nan_counter_scores_100_witness :
  YouTubeClient.score 1000 nan 20 = Ok (Int 100).
Proof.
  exact (nan_counter_scores_100 1000 nan 20 (or_intror (or_introl eq_refl))).
Defined.

Lemma views_below_one_count_as_one_witness :
  YouTubeClient.score 0.5 0.25 0 = YouTubeClient.score 1 0.25 0.
Proof.
  refine (views_below_one_count_as_one 0.5 0.25 0 _). vm_compute. reflexivity.
Defined.

Definition demo_prompt : pystr :=
  GeminiClient.content_prompt_of (lit "My video") (lit "About it") None.

Lemma failed_image_generation_keeps_the_idea_witness :
  Eff.run (GeminiClient.propose_new_thumbnail no_wrap blank_png
             (keyed_gemini (Some sdk_without_images))
             (lit "My video") (lit "About it") None)
  = (Ok {| GeminiClient.prompt := demo_prompt;
           GeminiClient.idea := PyStr.strip (lit "  Three concepts.  ");
           GeminiClient.image_data_url :=
             Some blank_placeholder |},
     [text_call (lit "My video") (lit "About it") None; image_call (lit "My video")]).
Proof.
  exact (failed_image_generation_keeps_the_idea no_wrap blank_png
           (keyed_gemini (Some sdk_without_images)) sdk_without_images
           (lit "My video") (lit "About it") None
           {| GeminiClient.text := Ok (lit "  Three concepts.  ") |}
           (lit "  Three concepts.  ") blank_placeholder
           eq_refl eq_refl eq_refl eq_refl eq_refl I).
Defined.

Lemma generated_image_replaces_the_placeholder_witness :
  Eff.run (GeminiClient.propose_new_thumbnail no_wrap blank_png
             (keyed_gemini (Some sdk_with_image))
             (lit "My video") (lit "About it") None)
  = (Ok {| GeminiClient.prompt := demo_prompt;
           GeminiClient.idea := PyStr.strip (lit "  Three concepts.  ");
           GeminiClient.image_data_url :=
             Some (GeminiClient.data_url [x89; x50; x4e; x47]) |},
     [text_call (lit "My video") (lit "About it") None; image_call (lit "My video")]).
Proof.
  exact (generated_image_replaces_the_placeholder no_wrap blank_png
           (keyed_gemini (Some sdk_with_image)) sdk_with_image
           (lit "My video") (lit "About it") None
           {| GeminiClient.text := Ok (lit "  Three concepts.  ") |}
           (lit "  Three concepts.  ") blank_placeholder
           {| GeminiClient.response_truthy := true;
              GeminiClient.generated_images :=
                Ok [GeminiClient.ImageBytes [x89; x50; x4e; x47];
                    GeminiClient.NotBytes] |}
           [x89; x50; x4e; x47] [GeminiClient.NotBytes]
           eq_refl eq_refl eq_refl eq_refl eq_refl eq_refl eq_refl eq_refl).
Defined.

Lemma failed_text_generation_is_not_recovered_witness :
  Eff.run (GeminiClient.propose_new_thumbnail no_wrap blank_png
             (keyed_gemini (Some sdk_text_times_out))
             (lit "My video") (lit "About it") None)
  = (Raise (ServiceError (lit "deadline exceeded")),
     [text_call (lit "My video") (lit "About it") None]).
Proof.
  exact (failed_text_generation_is_not_recovered no_wrap blank_png
           (keyed_gemini (Some sdk_text_times_out)) sdk_text_times_out
           (lit "My video") (lit "About it") None blank_placeholder
           (ServiceError (lit "deadline exceeded")) eq_refl eq_refl eq_refl eq_refl).
Defined.

Lemma key_without_library_gives_empty_idea_witness :
  Eff.run (GeminiClient.propose_new_thumbnail no_wrap blank_png (keyed_gemini None)
             (lit "My video") (lit "About it") None)
  = (Ok {| GeminiClient.prompt := demo_prompt;
           GeminiClient.idea := [];
           GeminiClient.image_data_url :=
             Some blank_placeholder |},
     []).
Proof.
  exact (key_without_library_gives_empty_idea no_wrap blank_png (keyed_gemini None)
           (lit "My video") (lit "About it") None blank_placeholder
           eq_refl eq_refl eq_refl).
Defined.

Lemma description_counts_up_to_500_characters_witness :
  GeminiClient.propose_new_thumbnail no_wrap blank_png
    (keyed_gemini (Some sdk_with_image)) (lit "My video")
    (List.repeat 97%N 500 ++ lit " and more") None []
  = GeminiClient.propose_new_thumbnail no_wrap blank_png
      (keyed_gemini (Some sdk_with_image)) (lit "My video")
      (List.repeat 97%N 500 ++ lit ", or something else") None [].
Proof.
  refine (description_counts_up_to_500_characters no_wrap blank_png
            (keyed_gemini (Some sdk_with_image)) (lit "My video")
            (List.repeat 97%N 500 ++ lit " and more")
            (List.repeat 97%N 500 ++ lit ", or something else") None [] _).
  vm_compute. reflexivity.
Defined.

Lemma suggestion_with_image :
  Eff.run (GeminiClient.propose_new_thumbnail no_wrap blank_png
             (keyed_gemini (Some sdk_with_image))
             (lit "My video") (lit "About it") None)
  = (Ok {| GeminiClient.prompt := demo_prompt;
           GeminiClient.idea := lit "Three concepts.";
           GeminiClient.image_data_url :=
             Some (GeminiClient.data_url [x89; x50; x4e; x47]) |},
     [text_call (lit "My video") (lit "About it") None; image_call (lit "My video")]).
Proof. vm_compute. reflexivity. Qed.

Lemma idea_has_no_outer_space_witness :
  no_outer_space (lit "Three concepts.").
Proof.
  exact (idea_has_no_outer_space no_wrap blank_png
           (keyed_gemini (Some sdk_with_image))
           (lit "My video") (lit "About it") None _ _ suggestion_with_image).
Defined.

Lemma image_is_a_png_data_url_witness :
  exists image,
    Some (GeminiClient.data_url [x89; x50; x4e; x47]) = Some image
    /\ is_png_data_url image.
Proof.
  exact (image_is_a_png_data_url no_wrap blank_png
           (keyed_gemini (Some sdk_with_image))
           (lit "My video") (lit "About it") None _ _ suggestion_with_image).
Defined.

Lemma channel_request_without_key_is_status_400_witness :
  exists detail,
    Main.fetch_channel ascii_only float_of_digits network_down (lit "invalid JSON")
      (YouTubeClient.init None) demo_channel_url []
    = (Main.Failed (Main.HTTPException 400 detail), [])
    /\ (detail = YouTubeClient.msg_unresolved
        \/ detail = YouTubeClient.msg_handle_needs_key
        \/ detail = YouTubeClient.msg_no_key).
Proof.
  exact (channel_request_without_key_is_status_400 ascii_only float_of_digits
           network_down (lit "invalid JSON") (YouTubeClient.init None)
           demo_channel_url eq_refl).
Defined.

Lemma demo_client_has_key :
  opt_truthy (YouTubeClient.api_key demo_client) = true.
Proof. vm_compute. reflexivity. Qed.

Lemma failed_channel_request_status_witness :
  Main.fetch_channel ascii_only float_of_digits network_down (lit "invalid JSON")
    demo_client demo_channel_url []
  = (Main.Failed (Main.HTTPException 502 Main.msg_upstream),
     [channels_request demo_client (VStr demo_channel_id)]).
Proof.
  exact (proj1 (failed_channel_request_status ascii_only float_of_digits
                  network_down (lit "invalid JSON") demo_client demo_channel_url
                  demo_channel_id demo_url_names_demo_channel demo_client_has_key)
           eq_refl).
Defined.

Lemma malformed_channel_answer_is_unhandled_witness :
  Main.fetch_channel ascii_only float_of_digits network_with_bare_item
    (lit "invalid JSON") demo_client demo_channel_url []
  = (Main.Failed (Main.Unhandled KeyError),
     [channels_request demo_client (VStr demo_channel_id)]).
Proof.
  refine (malformed_channel_answer_is_unhandled ascii_only float_of_digits
            network_with_bare_item (lit "invalid JSON") demo_client demo_channel_url
            demo_channel_id (VDict [(lit "items", VList [VDict []])]) (VDict [])
            KeyError demo_url_names_demo_channel demo_client_has_key eq_refl _ _).
  - exists []. vm_compute. reflexivity.
  - vm_compute. reflexivity.
Defined.

Lemma keyless_suggestion :
  GeminiClient.propose_new_thumbnail no_wrap blank_png keyless_gemini
    (lit "My video") (lit "About it") None []
  = (Ok {| GeminiClient.prompt := demo_prompt;
           GeminiClient.idea := GeminiClient.msg_use_key;
           GeminiClient.image_data_url :=
             Some blank_placeholder |},
     []).
Proof. vm_compute. reflexivity. Qed.

Lemma regenerate_without_youtube_key_witness :
  Main.regenerate_thumbnail ascii_only float_of_digits network_down no_wrap blank_png
    plain_str (YouTubeClient.init None) keyless_gemini (Some demo_channel_url)
    (lit "v1") (lit "My video") (lit "About it") ([], [])
  = (Main.Rendered
       {| Main.thumbnails := None;
          Main.channel_url := Some demo_channel_url;
          Main.regenerated_for := Some (lit "v1");
          Main.gemini_result :=
            Some {| GeminiClient.prompt := demo_prompt;
                    GeminiClient.idea := GeminiClient.msg_use_key;
                    GeminiClient.image_data_url :=
                      Some blank_placeholder |} |},
     ([], [])).
Proof.
  exact (regenerate_without_youtube_key ascii_only float_of_digits network_down
           no_wrap blank_png plain_str (YouTubeClient.init None) keyless_gemini
           (Some demo_channel_url) (lit "v1") (lit "My video") (lit "About it")
           [] [] [] _ eq_refl keyless_suggestion).
Defined.

Lemma lookup_finds_nothing :
  YouTubeClient.fetch_single_thumbnail float_of_digits network_failing_after_lookup
    demo_client (lit "v1") []
  = (Ok None, [videos_request demo_client (lit "v1")]).
Proof. vm_compute. reflexivity. Qed.

Lemma refetch_fails :
  YouTubeClient.fetch_thumbnails ascii_only float_of_digits
    network_failing_after_lookup demo_client demo_channel_url
    [videos_request demo_client (lit "v1")]
  = (Raise HTTPError,
     [videos_request demo_client (lit "v1");
      channels_request demo_client (VStr demo_channel_id)]).
Proof. vm_compute. reflexivity. Qed.

Lemma failed_refetch_is_swallowed_witness :
  Main.regenerate_thumbnail ascii_only float_of_digits network_failing_after_lookup
    no_wrap blank_png plain_str demo_client keyless_gemini (Some demo_channel_url)
    (lit "v1") (lit "My video") (lit "About it") ([], [])
  = (Main.Rendered
       {| Main.thumbnails := None;
          Main.channel_url := Some demo_channel_url;
          Main.regenerated_for := Some (lit "v1");
          Main.gemini_result :=
            Some {| GeminiClient.prompt := demo_prompt;
                    GeminiClient.idea := GeminiClient.msg_use_key;
                    GeminiClient.image_data_url :=
                      Some blank_placeholder |} |},
     ([videos_request demo_client (lit "v1");
       channels_request demo_client (VStr demo_channel_id)], [])).
Proof.
  exact (failed_refetch_is_swallowed ascii_only float_of_digits
           network_failing_after_lookup no_wrap blank_png plain_str demo_client
           keyless_gemini demo_channel_url (lit "v1") (lit "My video")
           (lit "About it") [] _ _ [] [] None _ HTTPError
           lookup_finds_nothing keyless_suggestion refetch_fails).
Defined.

Lemma failed_original_lookup_ends_regeneration_witness :
  Main.regenerate_thumbnail ascii_only float_of_digits network_down no_wrap blank_png
    plain_str demo_client keyless_gemini None
    (lit "v1") (lit "My video") (lit "About it") ([], [])
  = (Main.Failed (Main.Unhandled HTTPError),
     ([] ++ [videos_request demo_client (lit "v1")], [])).
Proof.
  exact (failed_original_lookup_ends_regeneration ascii_only float_of_digits
           network_down no_wrap blank_png plain_str demo_client keyless_gemini None
           (lit "v1") (lit "My video") (lit "About it") [] [] HTTPError
           demo_client_has_key eq_refl).
Defined.
